(** * util/types/mytime.go: the MySQL civil time value and its week arithmetic

    A shallow embedding of [mysqlTime], its accessors, [GoTime],
    [newMysqlTime], [calcDaynr], [calcDaysInYear], [calcWeekday] and
    [calcWeek], followed by the properties of the specification that
    these functions satisfy or violate, and by further properties of the
    week arithmetic and of the conversion to absolute time. *)

From Stdlib Require Import ZArith NArith Bool Lia List.
Import ListNotations.

Local Open Scope Z_scope.

(** Division facts on [Z.quot], [Z.rem], [/] and [mod] are handed to [lia]
    as their Euclidean equations. *)
Ltac Zify.zify_post_hook ::= Z.to_euclidean_division_equations.

(** ** Go's integer types

    [int] is the 64-bit two's-complement integer of the platforms the
    server is built for.  A value is a [Z] inside [min_int, max_int]; the
    result of an arithmetic expression is brought back into that range by
    [wrap64].  Addition, subtraction and multiplication commute with the
    reduction modulo 2^64, so one [wrap64] around a polynomial expression
    is the value Go computes for it step by step.  [/] and [%] on [int]
    truncate toward zero: [Z.quot] and [Z.rem].  A conversion to an
    unsigned type of [w] bits keeps the low [w] bits. *)

Definition min_int : Z := - 2 ^ 63.
Definition max_int : Z := 2 ^ 63 - 1.

Definition wrap64 (z : Z) : Z := (z + 2 ^ 63) mod 2 ^ 64 - 2 ^ 63.

Definition is_int (z : Z) : Prop := min_int <= z <= max_int.

Definition uint8 (z : Z) : Z := z mod 2 ^ 8.
Definition uint16 (z : Z) : Z := z mod 2 ^ 16.
Definition uint32 (z : Z) : Z := z mod 2 ^ 32.

(** ** The civil time value *)

Record mysqlTime : Set := MysqlTime {
  year : Z;         (* uint16, year <= 9999 *)
  month : Z;        (* uint8, month <= 12 *)
  day : Z;          (* uint8, day <= 31 *)
  hour : Z;         (* uint8, hour <= 23 *)
  minute : Z;       (* uint8, minute <= 59 *)
  second : Z;       (* uint8, second <= 59 *)
  microsecond : Z   (* uint32 *)
}.

(** What the field types of the struct allow, and nothing more. *)
Record mysqlTime_wf (t : mysqlTime) : Prop := MysqlTimeWf {
  wf_year : 0 <= year t < 2 ^ 16;
  wf_month : 0 <= month t < 2 ^ 8;
  wf_day : 0 <= day t < 2 ^ 8;
  wf_hour : 0 <= hour t < 2 ^ 8;
  wf_minute : 0 <= minute t < 2 ^ 8;
  wf_second : 0 <= second t < 2 ^ 8;
  wf_microsecond : 0 <= microsecond t < 2 ^ 32
}.

Definition Year (t : mysqlTime) : Z := year t.
Definition Month (t : mysqlTime) : Z := month t.
Definition Day (t : mysqlTime) : Z := day t.
Definition Hour (t : mysqlTime) : Z := hour t.
Definition Minute (t : mysqlTime) : Z := minute t.
Definition Second (t : mysqlTime) : Z := second t.
Definition Microsecond (t : mysqlTime) : Z := microsecond t.

Definition newMysqlTime (year month day hour minute second microsecond : Z)
  : mysqlTime :=
  MysqlTime (uint16 year) (uint8 month) (uint8 day) (uint8 hour)
            (uint8 minute) (uint8 second) (uint32 microsecond).

(** ** The standard library's absolute time

    [GoTime] and the derived accessors call Go's package [time].  The
    module below models the functions they use: [Date], and the methods
    [Date], [Clock], [Nanosecond], [Weekday], [YearDay] and [ISOWeek] of
    [Time].  A [Time] is a count of seconds since January 1 of year 1 UTC, a
    nanosecond count and a location; a [Location] is a zone of one fixed
    offset east of UTC, as [time.FixedZone] builds it.  The package's
    unsigned 64-bit arithmetic on absolute seconds is carried out in [Z]:
    for the field values a [mysqlTime] can hold no intermediate value
    leaves 64 bits. *)

Module gotime.

Record Location : Set := FixedZone { offset : Z }.

Definition UTC : Location := FixedZone 0.

Record Time : Set := MkTime { sec : Z; nsec : Z; loc : Location }.

Definition secondsPerMinute : Z := 60.
Definition secondsPerHour : Z := 60 * 60.
Definition secondsPerDay : Z := 24 * secondsPerHour.
Definition secondsPerWeek : Z := 7 * secondsPerDay.
Definition daysPer400Years : Z := 365 * 400 + 97.
Definition daysPer100Years : Z := 365 * 100 + 24.
Definition daysPer4Years : Z := 365 * 4 + 1.

Definition absoluteZeroYear : Z := -292277022399.
Definition absoluteToInternal : Z := -9223371966579724800.
Definition internalToAbsolute : Z := - absoluteToInternal.
Definition unixToInternal : Z :=
  (1969 * 365 + 1969 / 4 - 1969 / 100 + 1969 / 400) * secondsPerDay.
Definition internalToUnix : Z := - unixToInternal.

(** Months and weekdays are the integers Go numbers them with. *)
Definition February : Z := 2.
Definition March : Z := 3.
Definition December : Z := 12.
Definition Monday : Z := 1.

Definition daysBefore : list Z :=
  [0; 31; 31 + 28; 31 + 28 + 31; 31 + 28 + 31 + 30; 31 + 28 + 31 + 30 + 31;
   31 + 28 + 31 + 30 + 31 + 30; 31 + 28 + 31 + 30 + 31 + 30 + 31;
   31 + 28 + 31 + 30 + 31 + 30 + 31 + 31;
   31 + 28 + 31 + 30 + 31 + 30 + 31 + 31 + 30;
   31 + 28 + 31 + 30 + 31 + 30 + 31 + 31 + 30 + 31;
   31 + 28 + 31 + 30 + 31 + 30 + 31 + 31 + 30 + 31 + 30;
   31 + 28 + 31 + 30 + 31 + 30 + 31 + 31 + 30 + 31 + 30 + 31].

Definition daysBeforeAt (i : Z) : Z := nth (Z.to_nat i) daysBefore 0.

Definition isLeap (year : Z) : bool :=
  (Z.rem year 4 =? 0)
  && (negb (Z.rem year 100 =? 0) || (Z.rem year 400 =? 0)).

(** [norm hi lo base] returns [(nhi, nlo)] with
    [hi * base + lo = nhi * base + nlo] and [0 <= nlo < base]. *)
Definition norm (hi lo base : Z) : Z * Z :=
  let '(hi, lo) :=
    if lo <? 0 then
      let n := Z.quot (- lo - 1) base + 1 in (hi - n, lo + n * base)
    else (hi, lo) in
  if base <=? lo then
    let n := Z.quot lo base in (hi + n, lo - n * base)
  else (hi, lo).

(** The first half of [Date]: the normalised fields turned into seconds
    since the absolute epoch, and the normalised nanoseconds. *)
Definition dateAbs (year month day hour min sec nsec : Z) : Z * Z :=
  let m := month - 1 in
  let '(year, m) := norm year m 12 in
  let month := m + 1 in
  let '(sec, nsec) := norm sec nsec 1000000000 in
  let '(min, sec) := norm min sec 60 in
  let '(hour, min) := norm hour min 60 in
  let '(day, hour) := norm day hour 24 in
  let y := year - absoluteZeroYear in
  let n := y / 400 in
  let y := y - 400 * n in
  let d := daysPer400Years * n in
  let n := y / 100 in
  let y := y - 100 * n in
  let d := d + daysPer100Years * n in
  let n := y / 4 in
  let y := y - 4 * n in
  let d := d + daysPer4Years * n in
  let n := y in
  let d := d + 365 * n in
  let d := d + daysBeforeAt (month - 1) in
  let d := if isLeap year && (March <=? month) then d + 1 else d in
  let d := d + (day - 1) in
  let abs := d * secondsPerDay in
  let abs := abs + (hour * secondsPerHour + min * secondsPerMinute + sec) in
  (abs, nsec).

(** [Date]: the zone lookup of a fixed zone returns its one offset, and
    the wall-clock seconds are moved by it to UTC. *)
Definition Date (year month day hour min sec nsec : Z) (loc : Location)
  : Time :=
  let '(abs, nsec) := dateAbs year month day hour min sec nsec in
  let unix := abs + (absoluteToInternal + internalToUnix) in
  let unix := unix - offset loc in
  MkTime (unix + unixToInternal) nsec loc.

Definition abs (t : Time) : Z :=
  let sec := sec t + internalToUnix in
  let sec := sec + offset (loc t) in
  sec + (unixToInternal + internalToAbsolute).

Definition absDate (abs : Z) (full : bool) : Z * Z * Z * Z :=
  let d := abs / secondsPerDay in
  let n := d / daysPer400Years in
  let y := 400 * n in
  let d := d - daysPer400Years * n in
  let n := d / daysPer100Years in
  let n := n - Z.shiftr n 2 in
  let y := y + 100 * n in
  let d := d - daysPer100Years * n in
  let n := d / daysPer4Years in
  let y := y + 4 * n in
  let d := d - daysPer4Years * n in
  let n := d / 365 in
  let n := n - Z.shiftr n 2 in
  let y := y + n in
  let d := d - 365 * n in
  let year := y + absoluteZeroYear in
  let yday := d in
  if negb full then (year, 0, 0, yday)
  else
    let day := yday in
    if isLeap year && (day =? 31 + 29 - 1) then (year, February, 29, yday)
    else
      let day :=
        if isLeap year && (31 + 29 - 1 <? day) then day - 1 else day in
      let month := day / 31 in
      let end_ := daysBeforeAt (month + 1) in
      let '(month, begin) :=
        if end_ <=? day then (month + 1, end_)
        else (month, daysBeforeAt month) in
      (year, month + 1, day - begin + 1, yday).

Definition absClock (abs : Z) : Z * Z * Z :=
  let sec := abs mod secondsPerDay in
  let hour := sec / secondsPerHour in
  let sec := sec - hour * secondsPerHour in
  let min := sec / secondsPerMinute in
  let sec := sec - min * secondsPerMinute in
  (hour, min, sec).

Definition absWeekday (abs : Z) : Z :=
  let sec := (abs + Monday * secondsPerDay) mod secondsPerWeek in
  sec / secondsPerDay.

(** The method [Date] of [Time]. *)
Definition Time_Date (t : Time) : Z * Z * Z :=
  let '(year, month, day, _) := absDate (abs t) true in (year, month, day).

Definition Clock (t : Time) : Z * Z * Z := absClock (abs t).

Definition Nanosecond (t : Time) : Z := nsec t.

Definition Weekday (t : Time) : Z := absWeekday (abs t).

Definition YearDay (t : Time) : Z :=
  let '(_, _, _, yday) := absDate (abs t) false in yday + 1.

Definition ISOWeek (t : Time) : Z * Z :=
  let '(year, month, day, yday) := absDate (abs t) true in
  let wday := Z.rem (Weekday t + 6) 7 in
  let week := Z.quot (yday - wday + 7) 7 in
  let jan1wday := Z.rem (wday - yday + 7 * 53) 7 in
  let week :=
    if (1 <=? jan1wday) && (jan1wday <=? 3) then week + 1 else week in
  let '(year, week) :=
    if week =? 0 then
      let year := year - 1 in
      let week := 52 in
      if (jan1wday =? 4) || ((jan1wday =? 5) && isLeap year)
      then (year, week + 1) else (year, week)
    else (year, week) in
  if (month =? December) && (29 <=? day) && (wday <? 3)
     && (let dec31wday := Z.rem (wday + 31 - day) 7 in
         (0 <=? dec31wday) && (dec31wday <=? 2))
  then (year + 1, 1)
  else (year, week).

End gotime.

(** ** Conversion to absolute time and the accessors derived from it

  [GoTime] builds its time in [gotime.Local], the zone of the process;
  the section variable stands for that package variable. *)

Inductive error : Set := ErrInvalidTimeFormat.

Section ProcessZone.

Variable Local : gotime.Location.

Definition GoTime (t : mysqlTime) : gotime.Time * option error :=
  let tm :=
    gotime.Date (Year t) (Month t) (Day t) (Hour t) (Minute t) (Second t)
                (wrap64 (Microsecond t * 1000)) Local in
  let '(year, month, day) := gotime.Time_Date tm in
  let '(hour, minute, second) := gotime.Clock tm in
  let microsec := Z.quot (gotime.Nanosecond tm) 1000 in
  if negb (year =? Year t) || negb (month =? Month t)
     || negb (day =? Day t) || negb (hour =? Hour t)
     || negb (minute =? Minute t) || negb (second =? Second t)
     || negb (microsec =? Microsecond t)
  then (tm, Some ErrInvalidTimeFormat)
  else (tm, None).

Definition Weekday (t : mysqlTime) : Z :=
  match GoTime t with
  | (t1, Some _) => 0
  | (t1, None) => gotime.Weekday t1
  end.

Definition YearDay (t : mysqlTime) : Z :=
  match GoTime t with
  | (t1, Some _) => 0
  | (t1, None) => gotime.YearDay t1
  end.

Definition ISOWeek (t : mysqlTime) : Z * Z :=
  match GoTime t with
  | (t1, Some _) => (0, 0)
  | (t1, None) => gotime.ISOWeek t1
  end.

End ProcessZone.

(** ** Day numbers, year lengths and weekdays *)

Definition calcDaynr (year month day : Z) : Z :=
  let y := year in
  if (y =? 0) && (month =? 0) then 0
  else
    let delsum := wrap64 (365 * y + 31 * (month - 1) + day) in
    let '(y, delsum) :=
      if month <=? 2 then (wrap64 (y - 1), delsum)
      else (y, wrap64 (delsum - (month * 4 + Z.quot 23 10))) in
    let temp := Z.quot (wrap64 ((Z.quot y 100 + 1) * 3)) 4 in
    wrap64 (delsum + Z.quot y 4 - temp).

Definition calcDaysInYear (year : Z) : Z :=
  if (Z.land year 3 =? 0)
     && (negb (Z.rem year 100 =? 0)
         || ((Z.rem year 400 =? 0) && negb (year =? 0)))
  then 366 else 365.

Definition calcWeekday (daynr : Z) (sundayFirstDayOfWeek : bool) : Z :=
  let daynr := wrap64 (daynr + 5) in
  let daynr := if sundayFirstDayOfWeek then wrap64 (daynr + 1) else daynr in
  Z.rem daynr 7.

(** ** Week behaviour flags *)

Definition weekBehaviour : Set := N.

Definition weekBehaviourMondayFirst : weekBehaviour := N.shiftl 1 0.
Definition weekBehaviourWeekYear : weekBehaviour := N.shiftl 1 1.
Definition weekBehaviourWeekFirstWeekday : weekBehaviour := N.shiftl 1 2.

Definition test (v flag : weekBehaviour) : bool :=
  negb (N.land v flag =? 0)%N.

(** ** The week of a date

    The Go function writes the owning year through its [year] pointer and
    returns the week; here it returns both, together with two ghost flags
    that record whether the decrement of line 207 and the increment of
    line 224 were executed. *)

Record weekResult : Set := WeekResult {
  week : Z;
  owningYear : Z;
  decremented : bool;
  incremented : bool
}.

(** Lines 213-228: the day count from the start of week 1, the rollover
    into the next year's week 1, and the week number. *)
Definition calcWeekCount (first_weekday week_year dec : bool)
    (yr daynr first_daynr weekday : Z) : weekResult :=
  let days :=
    if (first_weekday && negb (weekday =? 0))
       || (negb first_weekday && (4 <=? weekday))
    then wrap64 (daynr - (first_daynr + 7 - weekday))
    else wrap64 (daynr - (first_daynr - weekday)) in
  let rollover :=
    week_year && (52 * 7 <=? days)
    && (let weekday := Z.rem (wrap64 (weekday + calcDaysInYear yr)) 7 in
        (negb first_weekday && (weekday <? 4))
        || (first_weekday && (weekday =? 0))) in
  if rollover then WeekResult 1 (wrap64 (yr + 1)) dec true
  else WeekResult (wrap64 (Z.quot days 7 + 1)) yr dec false.

Definition calcWeekTrace (t : mysqlTime) (wb : weekBehaviour) : weekResult :=
  let daynr := calcDaynr (year t) (month t) (day t) in
  let first_daynr := calcDaynr (year t) 1 1 in
  let monday_first := test wb weekBehaviourMondayFirst in
  let week_year := test wb weekBehaviourWeekYear in
  let first_weekday := test wb weekBehaviourWeekFirstWeekday in
  let weekday := calcWeekday first_daynr (negb monday_first) in
  let yr := year t in
  if (month t =? 1) && (day t <=? wrap64 (7 - weekday)) then
    if negb week_year
       && ((first_weekday && negb (weekday =? 0))
           || (negb first_weekday && (4 <=? weekday)))
    then WeekResult 0 yr false false
    else
      let week_year := true in
      let yr := wrap64 (yr - 1) in
      let days := calcDaysInYear yr in
      let first_daynr := wrap64 (first_daynr - days) in
      let weekday := Z.rem (wrap64 (weekday + 53 * 7 - days)) 7 in
      calcWeekCount first_weekday week_year true yr daynr first_daynr weekday
  else
    calcWeekCount first_weekday week_year false yr daynr first_daynr weekday.

(** The week and the owning year, as the caller of the Go function sees
    them. *)
Definition calcWeek (t : mysqlTime) (wb : weekBehaviour) : Z * Z :=
  let r := calcWeekTrace t wb in (week r, owningYear r).

(** The weekday of January 1st under the configured week start, and the
    condition of line 201 that sends a date down the early-January path. *)
Definition weekdayOfJan1 (t : mysqlTime) (wb : weekBehaviour) : Z :=
  calcWeekday (calcDaynr (year t) 1 1) (negb (test wb weekBehaviourMondayFirst)).

Definition earlyJanuary (t : mysqlTime) (wb : weekBehaviour) : bool :=
  (month t =? 1) && (day t <=? wrap64 (7 - weekdayOfJan1 t wb)).

Definition date (y m d : Z) : mysqlTime := MysqlTime y m d 0 0 0 0.

(** The time that line 90 builds for [t] in the zone [Local]. *)
Definition dateOf (Local : gotime.Location) (t : mysqlTime) : gotime.Time :=
  gotime.Date (Year t) (Month t) (Day t) (Hour t) (Minute t) (Second t)
              (wrap64 (Microsecond t * 1000)) Local.

(** The seven re-derived fields of an absolute time, as [GoTime] extracts
    them for its comparison. *)
Definition civilFields (tm : gotime.Time) : mysqlTime :=
  let '(year, month, day) := gotime.Time_Date tm in
  let '(hour, minute, second) := gotime.Clock tm in
  MysqlTime year month day hour minute second
            (Z.quot (gotime.Nanosecond tm) 1000).

(** The day number in the words of the specification, over the
    mathematical integers; [÷] truncates toward zero. *)
Definition dayNumber (year month day : Z) : Z :=
  if (year =? 0) && (month =? 0) then 0
  else
    let delsum := 365 * year + 31 * (month - 1) + day in
    let y := if month <=? 2 then year - 1 else year in
    let delsum := if month <=? 2 then delsum else delsum - (month * 4 + 2) in
    let correction := ((y ÷ 100 + 1) * 3) ÷ 4 in
    delsum + y ÷ 4 - correction.

(** The part of a day number that counts the leap days before a year. *)
Definition leapDays (y : Z) : Z := y ÷ 4 - ((y ÷ 100 + 1) * 3) ÷ 4.

(** Whether week 1 starts after the week that holds January 1st, for the
    weekday [weekday] of January 1st: the condition of lines 203 and 213. *)
Definition week1Later (first_weekday : bool) (weekday : Z) : bool :=
  (first_weekday && negb (weekday =? 0))
  || (negb first_weekday && (4 <=? weekday)).

(** The same date with another day of the month. *)
Definition withDay (t : mysqlTime) (d : Z) : mysqlTime :=
  MysqlTime (year t) (month t) d (hour t) (minute t) (second t)
            (microsecond t).

(** The same date in another year. *)
Definition withYear (t : mysqlTime) (y : Z) : mysqlTime :=
  MysqlTime y (month t) (day t) (hour t) (minute t) (second t)
            (microsecond t).

(** The days from the first day of week 1 of the calendar year to the
    date: the [days] of lines 213-218 when the early-January block is not
    entered. *)
Definition daysFromWeek1 (t : mysqlTime) (wb : weekBehaviour) : Z :=
  calcDaynr (year t) (month t) (day t) - calcDaynr (year t) 1 1
  + weekdayOfJan1 t wb
  - (if week1Later (test wb weekBehaviourWeekFirstWeekday)
                   (weekdayOfJan1 t wb)
     then 7 else 0).

(** ** Calendar dates

    The pieces of [gotime.Date] and [gotime.absDate], named so that the
    round trip of [GoTime] can be stated: the days from the absolute epoch
    to January 1st of a year, the day of the year of a month and day, and
    the way back. *)

Definition daysSinceEpoch (year : Z) : Z :=
  let y := year - gotime.absoluteZeroYear in
  let n := y / 400 in
  let y := y - 400 * n in
  let d := gotime.daysPer400Years * n in
  let n := y / 100 in
  let y := y - 100 * n in
  let d := d + gotime.daysPer100Years * n in
  let n := y / 4 in
  let y := y - 4 * n in
  let d := d + gotime.daysPer4Years * n in
  let n := y in
  d + 365 * n.

Definition dayOfYear (year month day : Z) : Z :=
  gotime.daysBeforeAt (month - 1)
  + (if gotime.isLeap year && (gotime.March <=? month) then 1 else 0)
  + (day - 1).

(** The seconds of a time of the day. *)
Definition secondOfDay (hour min sec : Z) : Z :=
  hour * gotime.secondsPerHour + min * gotime.secondsPerMinute + sec.

Definition yearAndDay (d : Z) : Z * Z :=
  let n := d / gotime.daysPer400Years in
  let y := 400 * n in
  let d := d - gotime.daysPer400Years * n in
  let n := d / gotime.daysPer100Years in
  let n := n - Z.shiftr n 2 in
  let y := y + 100 * n in
  let d := d - gotime.daysPer100Years * n in
  let n := d / gotime.daysPer4Years in
  let y := y + 4 * n in
  let d := d - gotime.daysPer4Years * n in
  let n := d / 365 in
  let n := n - Z.shiftr n 2 in
  let y := y + n in
  let d := d - 365 * n in
  (y + gotime.absoluteZeroYear, d).

Definition monthAndDay (leap : bool) (yday : Z) : Z * Z :=
  let day := yday in
  if leap && (day =? 31 + 29 - 1) then (gotime.February, 29)
  else
    let day := if leap && (31 + 29 - 1 <? day) then day - 1 else day in
    let month := day / 31 in
    let end_ := gotime.daysBeforeAt (month + 1) in
    let '(month, begin) :=
      if end_ <=? day then (month + 1, end_)
      else (month, gotime.daysBeforeAt month) in
    (month + 1, day - begin + 1).

(** The length of a month, in a leap year or not, and with Go's leap
    years. *)
Definition monthLength (leap : bool) (month : Z) : Z :=
  gotime.daysBeforeAt month - gotime.daysBeforeAt (month - 1)
  + (if (month =? 2) && leap then 1 else 0).

Definition daysIn (year month : Z) : Z :=
  monthLength (gotime.isLeap year) month.

(** The integers from 0 up to [n - 1], for the finite checks. *)
Definition upto (n : nat) : list Z := map Z.of_nat (seq 0 n).

(** The fields of [t] are a date of the calendar and a time of the day. *)
Definition validCivil (t : mysqlTime) : bool :=
  (1 <=? month t) && (month t <=? 12)
  && (1 <=? day t) && (day t <=? daysIn (year t) (month t))
  && (hour t <? 24) && (minute t <? 60) && (second t <? 60)
  && (microsecond t <? 1000000).

(** ** Weeks relative to the year

    [gotime.ISOWeek] and [calcWeek] with the year taken out, so that they
    can be compared on every weekday of January 1st and every day of the
    year.  [isoWeekRel] is the body of [gotime.ISOWeek] for year 0, with
    the leap test of the year before as a parameter. *)

Definition isoWeekRel (month day yday weekday : Z) (leapPrev : bool)
  : Z * Z :=
  let year := 0 in
  let wday := Z.rem (weekday + 6) 7 in
  let week := Z.quot (yday - wday + 7) 7 in
  let jan1wday := Z.rem (wday - yday + 7 * 53) 7 in
  let week :=
    if (1 <=? jan1wday) && (jan1wday <=? 3) then week + 1 else week in
  let '(year, week) :=
    if week =? 0 then
      let year := year - 1 in
      let week := 52 in
      if (jan1wday =? 4) || ((jan1wday =? 5) && leapPrev)
      then (year, week + 1) else (year, week)
    else (year, week) in
  if (month =? gotime.December) && (29 <=? day) && (wday <? 3)
     && (let dec31wday := Z.rem (wday + 31 - day) 7 in
         (0 <=? dec31wday) && (dec31wday <=? 2))
  then (year + 1, 1)
  else (year, week).



(** * Properties *)

(** ** Machine integers *)

Lemma wrap64_id (z : Z) : min_int <= z <= max_int -> wrap64 z = z.
Proof.
  unfold min_int, max_int, wrap64; intros H.
  rewrite Z.mod_small; lia.
Qed.

Lemma wrap64_is_int (z : Z) : is_int (wrap64 z).
Proof.
  unfold is_int, min_int, max_int, wrap64.
  pose proof (Z.mod_pos_bound (z + 2 ^ 63) (2 ^ 64) ltac:(lia)); lia.
Qed.

Lemma min_int_val : min_int = -9223372036854775808.
Proof. reflexivity. Qed.

Lemma max_int_val : max_int = 9223372036854775807.
Proof. reflexivity. Qed.

(** Removes every [wrap64] whose argument [lia] can bound. *)
Ltac unwrap :=
  repeat match goal with
    | |- context [wrap64 ?x] =>
        rewrite (wrap64_id x) by (rewrite min_int_val, max_int_val; lia)
    end.

(** ** Day numbers *)

Lemma calcDaynr_nowrap (year month day : Z) :
  - 2 ^ 31 <= year < 2 ^ 31 ->
  - 2 ^ 31 <= month < 2 ^ 31 ->
  - 2 ^ 31 <= day < 2 ^ 31 ->
  calcDaynr year month day = dayNumber year month day.
Proof.
  intros Hy Hm Hd. unfold calcDaynr, dayNumber.
  destruct ((year =? 0) && (month =? 0)); [reflexivity|].
  change (23 ÷ 10) with 2.
  destruct (month <=? 2); unwrap; reflexivity.
Qed.

(** C7. [calcDaynr] returns 0 for year 0 and month 0, and otherwise
    [delsum + y/4 - ((y/100 + 1) * 3) / 4] with [delsum] and [y] as the
    specification builds them, every division truncating toward zero; on
    operands of 32 bits no step of the 64-bit computation wraps, so the
    value is the one the formula has over the integers. *)
Theorem calcDaynr_formula (year month day : Z) :
  - 2 ^ 31 <= year < 2 ^ 31 ->
  - 2 ^ 31 <= month < 2 ^ 31 ->
  - 2 ^ 31 <= day < 2 ^ 31 ->
  (year = 0 -> month = 0 -> calcDaynr year month day = 0) /\
  (~ (year = 0 /\ month = 0) ->
   let delsum0 := 365 * year + 31 * (month - 1) + day in
   let y := if month <=? 2 then year - 1 else year in
   let delsum := if 2 <? month then delsum0 - (month * 4 + 2) else delsum0 in
   calcDaynr year month day = delsum + y ÷ 4 - ((y ÷ 100 + 1) * 3) ÷ 4) /\
  calcDaynr year month day = dayNumber year month day /\
  23 ÷ 10 = 2.
Proof.
  intros Hy Hm Hd.
  pose proof (calcDaynr_nowrap year month day Hy Hm Hd) as E.
  repeat split; trivial.
  - intros -> ->. reflexivity.
  - intros Hnz. rewrite E. unfold dayNumber.
    replace ((year =? 0) && (month =? 0)) with false.
    + cbv zeta. rewrite Z.ltb_antisym.
      destruct (month <=? 2); reflexivity.
    + symmetry. apply andb_false_iff.
      destruct (Z.eqb_spec year 0), (Z.eqb_spec month 0); tauto.
Qed.

Lemma calcDaynr_formula_witness :
  calcDaynr 2000 3 1 = 730000 + 62 + 1 - 14 + 2000 ÷ 4 - ((2000 ÷ 100 + 1) * 3) ÷ 4.
Proof.
  apply (proj1 (proj2 (calcDaynr_formula 2000 3 1
           ltac:(lia) ltac:(lia) ltac:(lia)))).
  intros [H _]; discriminate H.
Defined.

(** ** Year lengths *)

Lemma land_3_rem_4 (year : Z) : Z.land year 3 = 0 <-> Z.rem year 4 = 0.
Proof.
  change 3 with (Z.ones 2). rewrite Z.land_ones by lia.
  change (2 ^ 2) with 4. lia.
Qed.

(** C6. [calcDaysInYear] returns 366 exactly for the years with
    [year % 4 == 0] and ([year % 100 != 0] or ([year % 400 == 0] and
    [year != 0])), and 365 for every other year; year 0 has 365 days,
    2000 has 366, 1900 has 365 and 2024 has 366. *)
Theorem calcDaysInYear_spec (year : Z) :
  let leap := Z.rem year 4 = 0
              /\ (Z.rem year 100 <> 0 \/ (Z.rem year 400 = 0 /\ year <> 0)) in
  (calcDaysInYear year = 366 <-> leap) /\
  (calcDaysInYear year = 365 <-> ~ leap) /\
  calcDaysInYear 0 = 365 /\ calcDaysInYear 2000 = 366 /\
  calcDaysInYear 1900 = 365 /\ calcDaysInYear 2024 = 366.
Proof.
  cbv zeta.
  assert (D : calcDaysInYear year = 366 <->
              Z.rem year 4 = 0
              /\ (Z.rem year 100 <> 0 \/ (Z.rem year 400 = 0 /\ year <> 0))).
  { unfold calcDaysInYear. rewrite <- land_3_rem_4.
    destruct (Z.eqb_spec (Z.land year 3) 0), (Z.eqb_spec (Z.rem year 100) 0),
      (Z.eqb_spec (Z.rem year 400) 0), (Z.eqb_spec year 0); simpl;
      split; intros; try discriminate; try tauto. }
  assert (V : calcDaysInYear year = 366 \/ calcDaysInYear year = 365).
  { unfold calcDaysInYear. destruct (_ && _); auto. }
  split; [exact D|]. split; [|repeat split].
  split.
  - intros H L. apply D in L. congruence.
  - intros H. destruct V as [V|V]; [apply D in V; tauto | exact V].
Qed.

(** ** Weekdays *)

Lemma calcWeekday_nowrap (daynr : Z) (s : bool) :
  min_int <= daynr + 5 -> daynr + 6 <= max_int ->
  calcWeekday daynr s = Z.rem (daynr + 5 + (if s then 1 else 0)) 7.
Proof.
  intros Hlo Hhi. unfold calcWeekday. rewrite min_int_val, max_int_val in *.
  destruct s; unwrap; f_equal; lia.
Qed.

(** C4, as the code has it.  The remainder is Go's truncated one: on a
    day number whose shifted value [daynr + 5 + s] is not negative (and
    does not overflow) the weekday is in 0..6 and repeats with period 7. *)
Theorem calcWeekday_range_period (daynr : Z) (s : bool) :
  0 <= daynr + 5 + (if s then 1 else 0) ->
  daynr + 13 <= max_int ->
  0 <= calcWeekday daynr s <= 6 /\
  calcWeekday (wrap64 (daynr + 7)) s = calcWeekday daynr s.
Proof.
  intros Hlo Hhi. rewrite max_int_val in Hhi.
  assert (Hs : 0 <= (if s then 1 else 0) <= 1) by (destruct s; lia).
  rewrite (wrap64_id (daynr + 7)) by (rewrite min_int_val, max_int_val; lia).
  rewrite !calcWeekday_nowrap by (rewrite ?min_int_val, ?max_int_val; lia).
  split; lia.
Qed.

Lemma calcWeekday_range_period_witness :
  0 <= calcWeekday 730485 true <= 6 /\
  calcWeekday (wrap64 (730485 + 7)) true = calcWeekday 730485 true.
Proof.
  apply (calcWeekday_range_period 730485 true); vm_compute; discriminate.
Defined.

(** C4, as the specification states it, fails: day number -6 with a
    Monday-first week has weekday -1, and moving it by 7 days changes the
    weekday to 6. *)
Lemma calcWeekday_negative_daynr :
  ~ (forall daynr s, is_int daynr -> 0 <= calcWeekday daynr s <= 6) /\
  ~ (forall daynr s, is_int daynr -> is_int (daynr + 7) ->
       calcWeekday (daynr + 7) s = calcWeekday daynr s).
Proof.
  split; intros H.
  - specialize (H (-6) false ltac:(vm_compute; split; discriminate)).
    vm_compute in H. destruct H as [H _]. apply H. reflexivity.
  - specialize (H (-6) false ltac:(vm_compute; split; discriminate)
                  ltac:(vm_compute; split; discriminate)).
    vm_compute in H. discriminate H.
Qed.

(** ** Construction *)

(** C8. [newMysqlTime] is total: it narrows the year to 16 bits, the
    month, day, hour, minute and second to 8 bits and the microsecond to
    32 bits; on components inside the declared ranges every accessor
    returns the value that was passed. *)
Theorem newMysqlTime_fields (y m d h mi s us : Z) :
  let t := newMysqlTime y m d h mi s us in
  (mysqlTime_wf t /\
   Year t = y mod 2 ^ 16 /\ Month t = m mod 2 ^ 8 /\ Day t = d mod 2 ^ 8 /\
   Hour t = h mod 2 ^ 8 /\ Minute t = mi mod 2 ^ 8 /\
   Second t = s mod 2 ^ 8 /\ Microsecond t = us mod 2 ^ 32) /\
  (0 <= y <= 9999 -> 0 <= m <= 12 -> 0 <= d <= 31 -> 0 <= h <= 23 ->
   0 <= mi <= 59 -> 0 <= s <= 59 -> 0 <= us <= 999999 ->
   Year t = y /\ Month t = m /\ Day t = d /\ Hour t = h /\
   Minute t = mi /\ Second t = s /\ Microsecond t = us).
Proof.
  cbv zeta. unfold Year, Month, Day, Hour, Minute, Second, Microsecond,
    newMysqlTime, uint8, uint16, uint32; simpl.
  split.
  - split; [constructor; simpl; apply Z.mod_pos_bound; lia|].
    repeat split.
  - intros. repeat split; apply Z.mod_small; lia.
Qed.

Lemma newMysqlTime_fields_witness :
  let t := newMysqlTime 2024 2 29 12 0 0 0 in
  Year t = 2024 /\ Month t = 2 /\ Day t = 29 /\ Hour t = 12 /\
  Minute t = 0 /\ Second t = 0 /\ Microsecond t = 0.
Proof.
  apply (proj2 (newMysqlTime_fields 2024 2 29 12 0 0 0)); lia.
Defined.

(** ** Weeks *)

(** C1, as the code has it.  For 2000-01-01 the eight flag values 0..7
    give the weeks 0, 0, 52, 52, 0, 0, 52, 52; the owning year is 1999 for
    the four values with the WeekYear bit (2, 3, 6, 7) and 2000 for the
    others. *)
Theorem calcWeek_2000_01_01 :
  map (calcWeek (date 2000 1 1)) [0; 1; 2; 3; 4; 5; 6; 7]%N
  = [(0, 2000); (0, 2000); (52, 1999); (52, 1999);
     (0, 2000); (0, 2000); (52, 1999); (52, 1999)].
Proof. vm_compute. reflexivity. Qed.

(** C1, as the specification states it, fails at the flag values 4 and 6:
    the code returns week 0 of 2000 and week 52 of 1999 where the
    specification lists week 1 of 2000. *)
Lemma calcWeek_2000_01_01_not_as_listed :
  map (calcWeek (date 2000 1 1)) [0; 1; 2; 3; 4; 5; 6; 7]%N
  <> [(0, 2000); (0, 2000); (52, 1999); (52, 1999);
      (1, 2000); (0, 2000); (1, 2000); (52, 1999)].
Proof. vm_compute. discriminate. Qed.

Lemma calcWeek_trace (t : mysqlTime) (wb : weekBehaviour) :
  calcWeek t wb = (week (calcWeekTrace t wb), owningYear (calcWeekTrace t wb)).
Proof. reflexivity. Qed.

Lemma earlyJanuary_month (t : mysqlTime) (wb : weekBehaviour) :
  earlyJanuary t wb = true -> month t = 1.
Proof.
  unfold earlyJanuary. intros H. apply andb_true_iff in H.
  destruct H as [H _]. apply Z.eqb_eq in H. exact H.
Qed.

(** C10. The owning year is the calendar year, one less or one more.
    The decrement is executed only on the early-January path, so only for
    month 1; the increment is executed only by the rollover of lines
    220-226, which returns week 1.  A result one below the calendar year
    went through the decrement alone, a result one above through the
    increment alone. *)
Theorem calcWeek_owning_year (t : mysqlTime) (wb : weekBehaviour) :
  mysqlTime_wf t ->
  let r := calcWeekTrace t wb in
  calcWeek t wb = (week r, owningYear r) /\
  (owningYear r = year t \/ owningYear r = year t - 1
   \/ owningYear r = year t + 1) /\
  (decremented r = true -> earlyJanuary t wb = true /\ month t = 1) /\
  (incremented r = true -> week r = 1) /\
  (owningYear r = year t - 1 ->
   decremented r = true /\ incremented r = false /\ month t = 1) /\
  (owningYear r = year t + 1 ->
   incremented r = true /\ decremented r = false /\ week r = 1).
Proof.
  intros [Hy _ _ _ _ _ _]. cbv zeta.
  split; [reflexivity|].
  assert (M : earlyJanuary t wb = true -> month t = 1)
    by apply earlyJanuary_month.
  revert M. unfold earlyJanuary, weekdayOfJan1, calcWeekTrace. cbv zeta.
  set (e := (month t =? 1) && _).
  set (z := negb (test wb weekBehaviourWeekYear) && _).
  unfold calcWeekCount. cbv zeta.
  rewrite (wrap64_id (year t - 1)) by (rewrite min_int_val, max_int_val; lia).
  intros M.
  assert (U1 : wrap64 (year t - 1 + 1) = year t)
    by (rewrite wrap64_id; rewrite ?min_int_val, ?max_int_val; lia).
  assert (U2 : wrap64 (year t + 1) = year t + 1)
    by (rewrite wrap64_id; rewrite ?min_int_val, ?max_int_val; lia).
  destruct e; [destruct z|];
    match goal with
    | |- context [if ?b then _ else _] => destruct b
    | _ => idtac
    end;
    cbn [week owningYear decremented incremented];
    rewrite ?U1, ?U2;
    (split; [lia|]); repeat split; intros; try discriminate; try tauto; lia.
Qed.

Lemma calcWeek_owning_year_witness :
  mysqlTime_wf (date 2000 1 1) /\
  decremented (calcWeekTrace (date 2000 1 1) 2%N) = true /\
  incremented (calcWeekTrace (date 2000 1 1) 2%N) = false /\
  month (date 2000 1 1) = 1.
Proof.
  assert (W : mysqlTime_wf (date 2000 1 1)) by (constructor; simpl; lia).
  split; [exact W|].
  apply (calcWeek_owning_year (date 2000 1 1) 2%N W). reflexivity.
Defined.

Lemma calcDaysInYear_values (year : Z) :
  calcDaysInYear year = 365 \/ calcDaysInYear year = 366.
Proof. unfold calcDaysInYear. destruct (_ && _); auto. Qed.

Lemma leapDays_div (y : Z) :
  0 <= y -> leapDays y = y / 4 - ((y / 100 + 1) * 3) / 4.
Proof.
  intros H. unfold leapDays. rewrite !Z.quot_div_nonneg; try lia.
Qed.

Lemma leapDays_step (y : Z) :
  0 <= y -> 0 <= leapDays y - leapDays (y - 1) <= 1.
Proof.
  intros H. destruct (Z.eq_dec y 0) as [->|N].
  - vm_compute. split; discriminate.
  - rewrite !leapDays_div by lia. lia.
Qed.

Lemma leapDays_bound (y : Z) :
  0 <= y < 2 ^ 16 -> 0 <= leapDays (y - 1) <= 2 ^ 14.
Proof.
  intros H. change (2 ^ 16) with 65536 in H. change (2 ^ 14) with 16384.
  destruct (Z.eq_dec y 0) as [->|N].
  - vm_compute. split; discriminate.
  - rewrite !leapDays_div by lia. lia.
Qed.

Lemma dayNumber_unfold (Y M D : Z) :
  1 <= M ->
  dayNumber Y M D =
    365 * Y + 31 * (M - 1) + D
    + (if M <=? 2 then leapDays (Y - 1) else leapDays Y - (M * 4 + 2)).
Proof.
  intros HM. unfold dayNumber, leapDays.
  replace ((Y =? 0) && (M =? 0)) with false
    by (symmetry; apply andb_false_iff; right; apply Z.eqb_neq; lia).
  cbv zeta. destruct (M <=? 2); ring.
Qed.

Lemma dayNumber_jan1 (Y : Z) :
  0 <= Y < 2 ^ 16 -> 1 <= dayNumber Y 1 1 <= 2 ^ 25.
Proof.
  intros H. pose proof (leapDays_bound Y H) as B.
  rewrite dayNumber_unfold by lia. change (1 <=? 2) with true. cbv iota.
  change (2 ^ 16) with 65536 in H. change (2 ^ 14) with 16384 in B.
  change (2 ^ 25) with 33554432. lia.
Qed.

Lemma dayNumber_delta (Y M D : Z) :
  0 <= Y < 2 ^ 16 -> 1 <= M <= 12 -> 1 <= D <= 31 ->
  let delta := dayNumber Y M D - dayNumber Y 1 1 in
  (M = 1 -> delta = D - 1) /\ (M <> 1 -> 31 <= delta) /\ 0 <= delta <= 330.
Proof.
  intros HY HM HD. cbv zeta.
  pose proof (leapDays_step Y ltac:(lia)) as S.
  rewrite !dayNumber_unfold by lia. change (1 <=? 2) with true. cbv iota.
  destruct (Z.leb_spec M 2); lia.
Qed.

(** The week that [calcWeekCount] returns is in 1..53 as soon as the day
    count it starts from is in 0..370. *)
Lemma calcWeekCount_week (first_weekday week_year dec : bool)
    (yr daynr first_daynr weekday : Z) :
  - 2 ^ 40 <= daynr <= 2 ^ 40 -> - 2 ^ 40 <= first_daynr <= 2 ^ 40 ->
  0 <= weekday <= 6 ->
  ((first_weekday && negb (weekday =? 0))
   || (negb first_weekday && (4 <=? weekday)) = true ->
   7 <= daynr - first_daynr + weekday <= 377) ->
  ((first_weekday && negb (weekday =? 0))
   || (negb first_weekday && (4 <=? weekday)) = false ->
   0 <= daynr - first_daynr + weekday <= 370) ->
  1 <= week (calcWeekCount first_weekday week_year dec yr daynr first_daynr
               weekday) <= 53.
Proof.
  intros Hd Hf Hw HA HB. unfold calcWeekCount.
  change (2 ^ 40) with 1099511627776 in *.
  destruct ((first_weekday && negb (weekday =? 0))
            || (negb first_weekday && (4 <=? weekday)));
    [specialize (HA eq_refl); clear HB | specialize (HB eq_refl); clear HA];
    cbv zeta; unwrap;
    match goal with
    | |- context [if ?b then _ else _] => destruct b
    end;
    cbn [week]; unwrap; lia.
Qed.

Lemma week1_later_false (first_weekday : bool) (weekday : Z) :
  (first_weekday && negb (weekday =? 0))
  || (negb first_weekday && (4 <=? weekday)) = false ->
  weekday <= 3.
Proof.
  destruct first_weekday, (Z.eqb_spec weekday 0), (Z.leb_spec 4 weekday);
    simpl; intros; try discriminate; lia.
Qed.

(** C2, as the code has it.  For a date with a month in 1..12 and a day in
    1..31: with the WeekYear bit set the week is in 1..53; with the bit
    unset the week is 0 only on the early-January condition of line 201
    (month 1 and day at most 7 minus the weekday of January 1st), and at
    least 1 otherwise. *)
Theorem calcWeek_week_range (t : mysqlTime) (wb : weekBehaviour) :
  mysqlTime_wf t -> 1 <= month t <= 12 -> 1 <= day t <= 31 ->
  let w := fst (calcWeek t wb) in
  (test wb weekBehaviourWeekYear = true -> 1 <= w <= 53) /\
  (test wb weekBehaviourWeekYear = false ->
   (w = 0 -> month t = 1 /\ day t <= 7 - weekdayOfJan1 t wb) /\
   (w <> 0 -> 1 <= w)).
Proof.
  intros [HY _ _ _ _ _ _] HM HD. cbv zeta.
  unfold calcWeek, calcWeekTrace, weekdayOfJan1. cbv zeta. cbn [fst].
  pose proof (dayNumber_jan1 _ HY) as J.
  pose proof (dayNumber_delta _ _ _ HY HM HD) as Dl. cbv zeta in Dl.
  change (2 ^ 16) with 65536 in HY. change (2 ^ 25) with 33554432 in J.
  rewrite !calcDaynr_nowrap by lia.
  rewrite calcWeekday_nowrap by (rewrite ?min_int_val, ?max_int_val; lia).
  set (fd := dayNumber (year t) 1 1) in *.
  set (dn := dayNumber (year t) (month t) (day t)) in *.
  set (sh := if negb (test wb weekBehaviourMondayFirst) then 1 else 0).
  assert (Hsh : 0 <= sh <= 1) by (subst sh; destruct (negb _); lia).
  assert (Hw0 : 0 <= Z.rem (fd + 5 + sh) 7 <= 6) by lia.
  set (w0 := Z.rem (fd + 5 + sh) 7) in *. clearbody w0. clear sh Hsh.
  rewrite (wrap64_id (7 - w0)) by (rewrite min_int_val, max_int_val; lia).
  rewrite (wrap64_id (year t - 1)) by (rewrite min_int_val, max_int_val; lia).
  set (fw := test wb weekBehaviourWeekFirstWeekday).
  set (wy := test wb weekBehaviourWeekYear).
  destruct ((month t =? 1) && (day t <=? 7 - w0)) eqn:E.
  - apply andb_true_iff in E. destruct E as [E1 E2].
    apply Z.eqb_eq in E1. apply Z.leb_le in E2.
    destruct (negb wy && ((fw && negb (w0 =? 0))
                          || (negb fw && (4 <=? w0)))) eqn:Z0.
    + cbn [week]. apply andb_true_iff in Z0. destruct Z0 as [Z1 _].
      destruct wy; [discriminate Z1|].
      split; [discriminate|]. intros _. split; [tauto | congruence].
    + clearbody fd dn.
      destruct Dl as [Dl _]. specialize (Dl E1).
      assert (R : 1 <= week (calcWeekCount fw true true (year t - 1) dn
                     (wrap64 (fd - calcDaysInYear (year t - 1)))
                     (Z.rem (wrap64 (w0 + 53 * 7
                                     - calcDaysInYear (year t - 1))) 7))
                  <= 53).
      { destruct (calcDaysInYear_values (year t - 1)) as [L|L]; rewrite L;
          unwrap;
          (apply calcWeekCount_week;
           [ change (2 ^ 40) with 1099511627776; lia
           | change (2 ^ 40) with 1099511627776; lia
           | lia
           | intros _; lia
           | intros C; apply week1_later_false in C; lia ]). }
      lia.
  - clearbody fd dn.
    assert (R : 1 <= week (calcWeekCount fw wy false (year t) dn fd w0) <= 53).
    { apply andb_false_iff in E.
      apply calcWeekCount_week;
        [ change (2 ^ 40) with 1099511627776; lia
        | change (2 ^ 40) with 1099511627776; lia
        | lia
        | intros _ | intros _ ];
        (destruct E as [E|E];
         [apply Z.eqb_neq in E | apply Z.leb_gt in E]; lia). }
    lia.
Qed.

Lemma calcWeek_week_range_witness :
  mysqlTime_wf (date 2016 12 31) /\
  (test 2%N weekBehaviourWeekYear = true ->
   1 <= fst (calcWeek (date 2016 12 31) 2%N) <= 53).
Proof.
  assert (W : mysqlTime_wf (date 2016 12 31)) by (constructor; simpl; lia).
  split; [exact W|].
  apply (calcWeek_week_range (date 2016 12 31) 2%N W); simpl; lia.
Defined.

(** C2, as the specification states it for every input date, fails on
    the fields the struct can hold beyond a calendar date: the date
    2000-00-00 has week -3 under every flag value, with the WeekYear bit
    (flag value 2) and without it (flag value 0, outside January). *)
Lemma calcWeek_week_range_zero_month :
  ~ (forall t wb, mysqlTime_wf t ->
       test wb weekBehaviourWeekYear = true ->
       1 <= fst (calcWeek t wb) <= 53) /\
  ~ (forall t wb, mysqlTime_wf t ->
       test wb weekBehaviourWeekYear = false ->
       fst (calcWeek t wb) <> 0 -> 1 <= fst (calcWeek t wb)).
Proof.
  assert (W : mysqlTime_wf (date 2000 0 0)) by (constructor; simpl; lia).
  split; intros H.
  - specialize (H (date 2000 0 0) 2%N W eq_refl).
    vm_compute in H. destruct H as [H _]. apply H. reflexivity.
  - specialize (H (date 2000 0 0) 0%N W eq_refl).
    vm_compute in H. apply H; [discriminate | reflexivity].
Qed.

(** ** Conversion to absolute time *)

Lemma abs_Date (y m d h mi s ns : Z) (l : gotime.Location) :
  gotime.abs (gotime.Date y m d h mi s ns l) = fst (gotime.dateAbs y m d h mi s ns).
Proof.
  unfold gotime.Date, gotime.abs.
  destruct (gotime.dateAbs y m d h mi s ns) as [a n]. cbn [fst gotime.sec gotime.loc].
  unfold gotime.internalToUnix, gotime.internalToAbsolute. ring.
Qed.

Lemma Nanosecond_Date (y m d h mi s ns : Z) (l : gotime.Location) :
  gotime.Nanosecond (gotime.Date y m d h mi s ns l)
  = snd (gotime.dateAbs y m d h mi s ns).
Proof.
  unfold gotime.Date, gotime.Nanosecond.
  destruct (gotime.dateAbs y m d h mi s ns) as [a n]. reflexivity.
Qed.


Lemma mysqlTime_eta (t : mysqlTime) :
  t = MysqlTime (year t) (month t) (day t) (hour t) (minute t) (second t)
                (microsecond t).
Proof. destruct t; reflexivity. Qed.

(** [GoTime] returns the time [gotime.Date] built, and an error exactly
    when the re-derived fields are not the fields of [t]. *)
Lemma GoTime_unfold (Local : gotime.Location) (t : mysqlTime) :
  let tm := gotime.Date (Year t) (Month t) (Day t) (Hour t) (Minute t)
              (Second t) (wrap64 (Microsecond t * 1000)) Local in
  fst (GoTime Local t) = tm /\
  (civilFields tm = t -> snd (GoTime Local t) = None) /\
  (civilFields tm <> t -> snd (GoTime Local t) = Some ErrInvalidTimeFormat).
Proof.
  cbv zeta. destruct t as [Y M D H MI S US].
  unfold GoTime, civilFields, Year, Month, Day, Hour, Minute, Second,
    Microsecond.
  cbn [year month day hour minute second microsecond].
  set (tm := gotime.Date _ _ _ _ _ _ _ _).
  destruct (gotime.Time_Date tm) as [[y m] d].
  destruct (gotime.Clock tm) as [[h mi] s].
  destruct (Z.eqb_spec y Y), (Z.eqb_spec m M), (Z.eqb_spec d D),
    (Z.eqb_spec h H), (Z.eqb_spec mi MI), (Z.eqb_spec s S),
    (Z.eqb_spec (gotime.Nanosecond tm ÷ 1000) US);
    cbn [negb orb fst snd];
    (split; [reflexivity|]); split; intros E; try reflexivity;
    exfalso; congruence.
Qed.

Lemma GoTime_dateOf (Local : gotime.Location) (t : mysqlTime) :
  fst (GoTime Local t) = dateOf Local t /\
  (civilFields (dateOf Local t) = t -> snd (GoTime Local t) = None) /\
  (civilFields (dateOf Local t) <> t ->
   snd (GoTime Local t) = Some ErrInvalidTimeFormat).
Proof. exact (GoTime_unfold Local t). Qed.


Lemma mysqlTime_eq_dec (a b : mysqlTime) : {a = b} + {a <> b}.
Proof. decide equality; apply Z.eq_dec. Qed.

Lemma GoTime_error_cases (Local : gotime.Location) (t : mysqlTime) :
  (snd (GoTime Local t) = None /\ civilFields (dateOf Local t) = t) \/
  (snd (GoTime Local t) = Some ErrInvalidTimeFormat
   /\ civilFields (dateOf Local t) <> t).
Proof.
  destruct (GoTime_dateOf Local t) as (_ & Hok & Herr).
  destruct (mysqlTime_eq_dec (civilFields (dateOf Local t)) t) as [E|N];
    [left | right]; auto.
Qed.



(** ** Derived accessors *)

(** C9. When the conversion of [t] fails, [Weekday] returns 0, [YearDay]
    returns 0 and [ISOWeek] returns (0, 0); none of the three has an error
    in its result. *)
Theorem accessors_zero_on_error (Local : gotime.Location) (t : mysqlTime) :
  snd (GoTime Local t) <> None ->
  Weekday Local t = 0 /\ YearDay Local t = 0 /\ ISOWeek Local t = (0, 0).
Proof.
  unfold Weekday, YearDay, ISOWeek.
  destruct (GoTime Local t) as [t1 [e|]]; cbn [snd]; intros H;
    [auto | congruence].
Qed.

Lemma accessors_zero_on_error_witness :
  snd (GoTime gotime.UTC (MysqlTime 2023 2 29 0 0 0 0)) <> None /\
  Weekday gotime.UTC (MysqlTime 2023 2 29 0 0 0 0) = 0 /\
  YearDay gotime.UTC (MysqlTime 2023 2 29 0 0 0 0) = 0 /\
  ISOWeek gotime.UTC (MysqlTime 2023 2 29 0 0 0 0) = (0, 0).
Proof.
  assert (E : snd (GoTime gotime.UTC (MysqlTime 2023 2 29 0 0 0 0)) <> None)
    by (vm_compute; discriminate).
  split; [exact E|].
  exact (accessors_zero_on_error gotime.UTC (MysqlTime 2023 2 29 0 0 0 0) E).
Defined.

(** ** The zone of the conversion *)



(** * Further properties of the week arithmetic *)

(** ** Flags *)

Lemma test_low_bits (wb flag : weekBehaviour) :
  N.land 7 flag = flag -> test (N.land wb 7) flag = test wb flag.
Proof.
  intros H. unfold test. rewrite <- N.land_assoc, H. reflexivity.
Qed.

(** X1. [calcWeek] reads only the three low bits of its behaviour
    argument: every bit above them is ignored. *)
Theorem calcWeek_low_bits (t : mysqlTime) (wb : weekBehaviour) :
  calcWeek t wb = calcWeek t (N.land wb 7).
Proof.
  unfold calcWeek, calcWeekTrace.
  rewrite !test_low_bits by reflexivity. reflexivity.
Qed.

(** ** Day numbers and year lengths agree *)

Lemma calcDaysInYear_366 (y : Z) :
  calcDaysInYear y = 366 <->
  y mod 4 = 0 /\ (y mod 100 <> 0 \/ (y mod 400 = 0 /\ y <> 0)).
Proof.
  unfold calcDaysInYear.
  pose proof (land_3_rem_4 y) as L.
  assert (R : forall b, b <> 0 -> Z.rem y b = 0 <-> y mod b = 0)
    by (intros b Hb; rewrite Z.rem_divide, Z.mod_divide by exact Hb;
        reflexivity).
  pose proof (R 4 ltac:(discriminate)) as R4.
  pose proof (R 100 ltac:(discriminate)) as R100.
  pose proof (R 400 ltac:(discriminate)) as R400. clear R.
  destruct (Z.eqb_spec (Z.land y 3) 0), (Z.eqb_spec (Z.rem y 100) 0),
    (Z.eqb_spec (Z.rem y 400) 0), (Z.eqb_spec y 0);
    cbn [negb andb orb]; split; intros H; try discriminate;
    try reflexivity; tauto.
Qed.

Lemma leapDays_step_exact (y : Z) :
  0 <= y -> leapDays y - leapDays (y - 1) = calcDaysInYear y - 365.
Proof.
  intros H. destruct (Z.eq_dec y 0) as [->|N]; [reflexivity|].
  rewrite !leapDays_div by lia.
  pose proof (calcDaysInYear_366 y) as Q.
  destruct (calcDaysInYear_values y) as [L|L]; rewrite L in *.
  - assert (~ (y mod 4 = 0
               /\ (y mod 100 <> 0 \/ (y mod 400 = 0 /\ y <> 0))))
      by (intros C; apply Q in C; discriminate C).
    lia.
  - assert (y mod 4 = 0 /\ (y mod 100 <> 0 \/ (y mod 400 = 0 /\ y <> 0)))
      by (apply Q; reflexivity).
    lia.
Qed.

(** X2. The day numbers of two consecutive January 1sts differ by the
    length [calcDaysInYear] gives the earlier year, year 0 with its 365
    days included. *)
Theorem calcDaynr_year_step (y : Z) :
  0 <= y < 2 ^ 16 - 1 ->
  calcDaynr (y + 1) 1 1 - calcDaynr y 1 1 = calcDaysInYear y.
Proof.
  intros H. change (2 ^ 16 - 1) with 65535 in H.
  rewrite !calcDaynr_nowrap by lia.
  rewrite !dayNumber_unfold by lia. change (1 <=? 2) with true. cbv iota.
  pose proof (leapDays_step_exact y ltac:(lia)) as S.
  replace (y + 1 - 1) with y by lia. lia.
Qed.

Lemma calcDaynr_year_step_witness :
  calcDaynr (1999 + 1) 1 1 - calcDaynr 1999 1 1 = calcDaysInYear 1999.
Proof. apply (calcDaynr_year_step 1999). lia. Defined.

Lemma dayNumber_by_month (y m d : Z) :
  0 <= y < 2 ^ 16 -> 1 <= m < 2 ^ 8 -> 0 <= d < 2 ^ 8 ->
  dayNumber y m d - dayNumber y 1 1 =
    if m <=? 2 then 31 * (m - 1) + d - 1
    else 27 * m - 34 + d + (calcDaysInYear y - 365).
Proof.
  intros Hy Hm Hd.
  change (2 ^ 16) with 65536 in Hy. change (2 ^ 8) with 256 in Hm, Hd.
  rewrite !dayNumber_unfold by lia.
  change (1 <=? 2) with true. cbv iota.
  pose proof (leapDays_step_exact y ltac:(lia)) as S.
  destruct (m <=? 2); lia.
Qed.

(** X3. Relative to January 1st of the same year, a date of January or
    February has day number [31 * (month - 1) + day - 1], and a date of a
    later month has [27 * month - 34 + day] plus the leap day of the year:
    the subtracted term is [month * 4 + 2], so March 1st is 48 or 49 days
    after January 1st and has a smaller day number than February 20th. *)
Theorem calcDaynr_by_month (y m d : Z) :
  0 <= y < 2 ^ 16 -> 1 <= m < 2 ^ 8 -> 0 <= d < 2 ^ 8 ->
  calcDaynr y m d - calcDaynr y 1 1 =
    (if m <=? 2 then 31 * (m - 1) + d - 1
     else 27 * m - 34 + d + (calcDaysInYear y - 365)) /\
  calcDaynr y 3 1 < calcDaynr y 2 20.
Proof.
  intros Hy Hm Hd.
  pose proof (dayNumber_by_month y m d Hy Hm Hd) as E.
  pose proof (dayNumber_by_month y 3 1 Hy ltac:(lia) ltac:(lia)) as E3.
  pose proof (dayNumber_by_month y 2 20 Hy ltac:(lia) ltac:(lia)) as E2.
  change (3 <=? 2) with false in E3. change (2 <=? 2) with true in E2.
  cbv iota in E2, E3.
  change (2 ^ 16) with 65536 in Hy. change (2 ^ 8) with 256 in Hm, Hd.
  rewrite !calcDaynr_nowrap by lia.
  destruct (calcDaysInYear_values y) as [L|L]; rewrite L in *; split; lia.
Qed.

Lemma calcDaynr_by_month_witness :
  calcDaynr 2001 3 1 - calcDaynr 2001 1 1 =
    (if 3 <=? 2 then 31 * (3 - 1) + 1 - 1
     else 27 * 3 - 34 + 1 + (calcDaysInYear 2001 - 365)) /\
  calcDaynr 2001 3 1 < calcDaynr 2001 2 20.
Proof. apply (calcDaynr_by_month 2001 3 1); lia. Defined.

(** ** The week count without wrap-around *)

Lemma dayNumber_bound (Y M D : Z) :
  0 <= Y < 2 ^ 16 -> 0 <= M < 2 ^ 8 -> 0 <= D < 2 ^ 8 ->
  - 2 ^ 26 <= dayNumber Y M D <= 2 ^ 26.
Proof.
  intros HY HM HD. change (2 ^ 16) with 65536 in HY.
  change (2 ^ 8) with 256 in HM, HD. change (2 ^ 26) with 67108864.
  unfold dayNumber.
  destruct ((Y =? 0) && (M =? 0)); [lia|]. cbv zeta.
  pose proof (leapDays_bound Y ltac:(lia)) as B.
  pose proof (leapDays_step Y ltac:(lia)) as S.
  change (2 ^ 14) with 16384 in B.
  fold (leapDays (if M <=? 2 then Y - 1 else Y)).
  destruct (M <=? 2); lia.
Qed.

Lemma calcWeekday_jan1 (Y : Z) (s : bool) :
  0 <= Y < 2 ^ 16 ->
  calcWeekday (dayNumber Y 1 1) s
  = Z.rem (dayNumber Y 1 1 + 5 + (if s then 1 else 0)) 7
  /\ 0 <= calcWeekday (dayNumber Y 1 1) s <= 6.
Proof.
  intros HY. pose proof (dayNumber_jan1 Y HY) as J.
  change (2 ^ 25) with 33554432 in J.
  rewrite calcWeekday_nowrap by (rewrite ?min_int_val, ?max_int_val; lia).
  split; [reflexivity|]. destruct s; lia.
Qed.

(** [calcWeekTrace] on the fields a [mysqlTime] can hold: no 64-bit
    operation wraps. *)
Lemma calcWeekTrace_nowrap (t : mysqlTime) (wb : weekBehaviour) :
  mysqlTime_wf t ->
  let dn := dayNumber (year t) (month t) (day t) in
  let fd := dayNumber (year t) 1 1 in
  let fw := test wb weekBehaviourWeekFirstWeekday in
  let wy := test wb weekBehaviourWeekYear in
  let w0 := weekdayOfJan1 t wb in
  0 <= w0 <= 6 /\
  earlyJanuary t wb = (month t =? 1) && (day t <=? 7 - w0) /\
  calcWeekTrace t wb =
    if earlyJanuary t wb then
      if negb wy && week1Later fw w0 then WeekResult 0 (year t) false false
      else
        let L := calcDaysInYear (year t - 1) in
        calcWeekCount fw true true (year t - 1) dn (fd - L)
                      (Z.rem (w0 + 53 * 7 - L) 7)
    else calcWeekCount fw wy false (year t) dn fd w0.
Proof.
  intros [HY HM HD _ _ _ _]. cbv zeta.
  pose proof (calcWeekday_jan1 (year t)
                (negb (test wb weekBehaviourMondayFirst)) HY) as [_ W].
  pose proof (dayNumber_jan1 _ HY) as J.
  change (2 ^ 25) with 33554432 in J.
  assert (E0 : weekdayOfJan1 t wb
               = calcWeekday (dayNumber (year t) 1 1)
                   (negb (test wb weekBehaviourMondayFirst))).
  { unfold weekdayOfJan1.
    rewrite calcDaynr_nowrap; [reflexivity| | |];
      change (2 ^ 16) with 65536 in HY; lia. }
  unfold earlyJanuary, calcWeekTrace. cbv zeta. fold (weekdayOfJan1 t wb).
  rewrite !calcDaynr_nowrap
    by (change (2 ^ 16) with 65536 in HY; change (2 ^ 8) with 256 in HM, HD;
        lia).
  rewrite <- E0 in W.
  set (w0 := weekdayOfJan1 t wb) in *. clearbody w0.
  rewrite (wrap64_id (7 - w0)) by (rewrite min_int_val, max_int_val; lia).
  split; [exact W|]. split; [reflexivity|].
  change (2 ^ 16) with 65536 in HY.
  rewrite (wrap64_id (year t - 1)) by (rewrite min_int_val, max_int_val; lia).
  destruct (calcDaysInYear_values (year t - 1)) as [L|L]; rewrite L;
    unwrap; reflexivity.
Qed.

Lemma week1_holds_negb (first_weekday : bool) (weekday : Z) :
  (negb first_weekday && (weekday <? 4)) || (first_weekday && (weekday =? 0))
  = negb (week1Later first_weekday weekday).
Proof.
  unfold week1Later.
  destruct first_weekday, (Z.eqb_spec weekday 0), (Z.ltb_spec weekday 4),
    (Z.leb_spec 4 weekday); cbn; try reflexivity; lia.
Qed.

Lemma week1Later_cases (first_weekday : bool) (weekday : Z) :
  (week1Later first_weekday weekday = true /\ weekday <> 0
   /\ (first_weekday = false -> 4 <= weekday)) \/
  (week1Later first_weekday weekday = false /\ weekday <= 3
   /\ (first_weekday = true -> weekday = 0)).
Proof.
  unfold week1Later.
  destruct first_weekday, (Z.eqb_spec weekday 0), (Z.leb_spec 4 weekday);
    cbn; [right|right|left|left|right|right|left|right];
    repeat split; intros; try discriminate; lia.
Qed.

(** What [calcWeekCount] returns, by the two exits of lines 220-228. *)
Lemma calcWeekCount_cases (first_weekday week_year dec : bool)
    (yr daynr first_daynr weekday : Z) :
  - 2 ^ 40 <= daynr <= 2 ^ 40 -> - 2 ^ 40 <= first_daynr <= 2 ^ 40 ->
  - 2 ^ 40 <= yr <= 2 ^ 40 -> 0 <= weekday <= 6 ->
  let days := daynr - first_daynr + weekday
              - (if week1Later first_weekday weekday then 7 else 0) in
  let next := Z.rem (weekday + calcDaysInYear yr) 7 in
  let r := calcWeekCount first_weekday week_year dec yr daynr first_daynr
             weekday in
  decremented r = dec /\
  ((incremented r = true /\ week r = 1 /\ owningYear r = yr + 1
    /\ week_year = true /\ 364 <= days
    /\ week1Later first_weekday next = false) \/
   (incremented r = false /\ week r = days ÷ 7 + 1 /\ owningYear r = yr
    /\ (week_year = false \/ days < 364
        \/ week1Later first_weekday next = true))).
Proof.
  intros Hd Hf Hy Hw. cbv zeta.
  change (2 ^ 40) with 1099511627776 in *.
  unfold calcWeekCount. rewrite week1_holds_negb.
  fold (week1Later first_weekday weekday).
  destruct (calcDaysInYear_values yr) as [L|L]; rewrite L;
    destruct (week1Later first_weekday weekday); cbv zeta; unwrap.
  all: match goal with
       | |- context [52 * 7 <=? ?d] => destruct (Z.leb_spec (52 * 7) d)
       end.
  all: destruct week_year;
    match goal with
    | |- context [week1Later ?f ?w] => destruct (week1Later f w)
    end;
    cbn [andb negb week owningYear decremented incremented]; unwrap;
    (split; [reflexivity|]).
  all: first [ left; repeat split; (reflexivity || lia)
             | right; repeat split; try reflexivity;
               first [ f_equal; f_equal; lia
                     | left; reflexivity
                     | right; left; lia
                     | right; right; reflexivity ] ].
Qed.

(** ** Calendar dates outside the early-January path *)

Lemma calcWeek_outside_early (t : mysqlTime) (wb : weekBehaviour) :
  mysqlTime_wf t -> 1 <= month t <= 12 -> 1 <= day t <= 31 ->
  earlyJanuary t wb = false ->
  0 <= daysFromWeek1 t wb <= 328 /\
  calcWeekTrace t wb
  = WeekResult (daysFromWeek1 t wb ÷ 7 + 1) (year t) false false.
Proof.
  intros W HM HD E.
  destruct (calcWeekTrace_nowrap t wb W) as (Hw0 & EE & CT).
  cbv zeta in *. rewrite E in CT. rewrite E in EE.
  destruct W as [HY _ _ _ _ _ _].
  pose proof (dayNumber_jan1 _ HY) as J.
  pose proof (dayNumber_by_month (year t) (month t) (day t) HY
                ltac:(change (2 ^ 8) with 256; lia)
                ltac:(change (2 ^ 8) with 256; lia)) as Dl.
  change (2 ^ 16) with 65536 in HY. change (2 ^ 25) with 33554432 in J.
  unfold daysFromWeek1. rewrite !calcDaynr_nowrap by lia.
  set (w0 := weekdayOfJan1 t wb) in *. clearbody w0.
  set (fd := dayNumber (year t) 1 1) in *.
  set (dn := dayNumber (year t) (month t) (day t)) in *.
  clearbody fd dn.
  set (fw := test wb weekBehaviourWeekFirstWeekday) in *. clearbody fw.
  assert (B : 0 <= dn - fd + w0 - (if week1Later fw w0 then 7 else 0) <= 328).
  { symmetry in EE. apply andb_false_iff in EE.
    destruct (calcDaysInYear_values (year t)) as [L|L]; rewrite L in Dl;
      destruct (week1Later fw w0), (Z.leb_spec (month t) 2);
      (destruct EE as [EE|EE];
       [apply Z.eqb_neq in EE | apply Z.leb_gt in EE]); lia. }
  assert (B2 : -7 <= dn - fd <= 335)
    by (destruct (week1Later fw w0); lia).
  split; [exact B|].
  rewrite CT.
  pose proof (calcWeekCount_cases fw (test wb weekBehaviourWeekYear) false
                (year t) dn fd w0
                ltac:(change (2 ^ 40) with 1099511627776; lia)
                ltac:(change (2 ^ 40) with 1099511627776; lia)
                ltac:(change (2 ^ 40) with 1099511627776; lia) Hw0) as C.
  cbv zeta in C.
  destruct (calcWeekCount fw (test wb weekBehaviourWeekYear) false
              (year t) dn fd w0) as [w oy de inc].
  cbn [week owningYear decremented incremented] in C.
  destruct C as (-> & [C|C]).
  - lia.
  - destruct C as (-> & -> & -> & _). reflexivity.
Qed.

(** X4. For a date with a month in 1..12 and a day in 1..31 that is not
    on the early-January path, the week is the day count from the start
    of week 1 divided by 7, plus 1; it lies in 1..47 and belongs to the
    calendar year.  Neither the decrement nor the increment of the owning
    year is executed: the day count of such a date stays below 52 weeks. *)
Theorem calcWeek_calendar_date (t : mysqlTime) (wb : weekBehaviour) :
  mysqlTime_wf t -> 1 <= month t <= 12 -> 1 <= day t <= 31 ->
  earlyJanuary t wb = false ->
  calcWeek t wb = (daysFromWeek1 t wb ÷ 7 + 1, year t) /\
  1 <= fst (calcWeek t wb) <= 47 /\
  decremented (calcWeekTrace t wb) = false /\
  incremented (calcWeekTrace t wb) = false.
Proof.
  intros W HM HD E.
  destruct (calcWeek_outside_early t wb W HM HD E) as [B CT].
  unfold calcWeek. rewrite CT. cbn [week owningYear decremented incremented fst].
  repeat split; lia.
Qed.

Lemma calcWeek_calendar_date_witness :
  calcWeek (date 2016 12 31) 3%N
  = (daysFromWeek1 (date 2016 12 31) 3%N ÷ 7 + 1, year (date 2016 12 31)) /\
  1 <= fst (calcWeek (date 2016 12 31) 3%N) <= 47 /\
  decremented (calcWeekTrace (date 2016 12 31) 3%N) = false /\
  incremented (calcWeekTrace (date 2016 12 31) 3%N) = false.
Proof.
  apply (calcWeek_calendar_date (date 2016 12 31) 3%N);
    [constructor; simpl; lia | simpl; lia | simpl; lia | reflexivity].
Defined.

Lemma earlyJanuary_flags (t : mysqlTime) (wb wb' : weekBehaviour) :
  test wb' weekBehaviourMondayFirst = test wb weekBehaviourMondayFirst ->
  weekdayOfJan1 t wb' = weekdayOfJan1 t wb
  /\ earlyJanuary t wb' = earlyJanuary t wb.
Proof.
  intros H. unfold earlyJanuary, weekdayOfJan1. rewrite H. auto.
Qed.

(** X5. Outside the early-January path the WeekYear bit has no effect on
    a date with a month in 1..12 and a day in 1..31: two flag values that
    agree on the other two bits give the same week and owning year. *)
Theorem calcWeek_week_year_bit_unused (t : mysqlTime)
    (wb wb' : weekBehaviour) :
  mysqlTime_wf t -> 1 <= month t <= 12 -> 1 <= day t <= 31 ->
  earlyJanuary t wb = false ->
  test wb' weekBehaviourMondayFirst = test wb weekBehaviourMondayFirst ->
  test wb' weekBehaviourWeekFirstWeekday
  = test wb weekBehaviourWeekFirstWeekday ->
  calcWeek t wb' = calcWeek t wb.
Proof.
  intros W HM HD E F1 F2.
  destruct (earlyJanuary_flags t wb wb' F1) as [E1 E2].
  rewrite E in E2.
  destruct (calcWeek_outside_early t wb W HM HD E) as [_ CT].
  destruct (calcWeek_outside_early t wb' W HM HD E2) as [_ CT'].
  unfold calcWeek. rewrite CT, CT'.
  unfold daysFromWeek1. rewrite E1, F2. reflexivity.
Qed.

Lemma calcWeek_week_year_bit_unused_witness :
  calcWeek (date 2016 12 31) 3%N = calcWeek (date 2016 12 31) 1%N.
Proof.
  apply (calcWeek_week_year_bit_unused (date 2016 12 31) 1%N 3%N);
    [constructor; simpl; lia | simpl; lia | simpl; lia
    | reflexivity | reflexivity | reflexivity].
Defined.

(** ** The early-January path *)

(** X6. On the early-January path a date with day at least 1 has one of
    four results.  Week 0 of its own year, when the WeekYear bit is unset
    and week 1 starts after the week of January 1st; week 1 of its own
    year, when the week of January 1st is week 1; week 52 or 53 of the
    year before, when the WeekYear bit is set and week 1 starts later. *)
Theorem calcWeek_early_january (t : mysqlTime) (wb : weekBehaviour) :
  mysqlTime_wf t -> 1 <= day t -> earlyJanuary t wb = true ->
  let later := week1Later (test wb weekBehaviourWeekFirstWeekday)
                          (weekdayOfJan1 t wb) in
  let wy := test wb weekBehaviourWeekYear in
  (later = true /\ wy = false /\ calcWeek t wb = (0, year t)) \/
  (later = false /\ calcWeek t wb = (1, year t)) \/
  (later = true /\ wy = true /\
   (calcWeek t wb = (52, year t - 1) \/ calcWeek t wb = (53, year t - 1))).
Proof.
  intros W HD E. cbv zeta.
  destruct (calcWeekTrace_nowrap t wb W) as (Hw0 & EE & CT).
  cbv zeta in *. rewrite E in CT. rewrite E in EE.
  symmetry in EE. apply andb_true_iff in EE. destruct EE as [E1 E2].
  apply Z.eqb_eq in E1. apply Z.leb_le in E2.
  destruct W as [HY _ _ _ _ _ _].
  pose proof (dayNumber_jan1 _ HY) as J.
  pose proof (dayNumber_by_month (year t) (month t) (day t) HY
                ltac:(change (2 ^ 8) with 256; lia)
                ltac:(change (2 ^ 8) with 256; lia)) as Dl.
  rewrite E1 in Dl. change (1 <=? 2) with true in Dl. cbv iota in Dl.
  change (2 ^ 16) with 65536 in HY. change (2 ^ 25) with 33554432 in J.
  rewrite E1 in CT.
  set (w0 := weekdayOfJan1 t wb) in *. clearbody w0.
  set (fd := dayNumber (year t) 1 1) in *.
  set (dn := dayNumber (year t) 1 (day t)) in *.
  clearbody fd dn.
  set (fw := test wb weekBehaviourWeekFirstWeekday) in *. clearbody fw.
  set (wy := test wb weekBehaviourWeekYear) in *. clearbody wy.
  unfold calcWeek. rewrite CT. clear CT.
  destruct (week1Later_cases fw w0) as [(A & A1 & A2)|(A & A1 & A2)];
    rewrite A.
  - destruct wy; cbn [negb andb].
    + right; right. split; [reflexivity|]. split; [reflexivity|].
      destruct (calcDaysInYear_values (year t - 1)) as [L|L]; rewrite L.
      all: match goal with
           | |- context [calcWeekCount ?a ?b ?c ?y ?d ?f ?w] =>
               pose proof (calcWeekCount_cases a b c y d f w
                 ltac:(change (2 ^ 40) with 1099511627776; lia)
                 ltac:(change (2 ^ 40) with 1099511627776; lia)
                 ltac:(change (2 ^ 40) with 1099511627776; lia)
                 ltac:(lia)) as C;
               cbv zeta in C;
               destruct (calcWeekCount a b c y d f w) as [w1 oy de inc];
               set (w' := w) in *
           end.
      all: cbn [week owningYear decremented incremented] in C |- *.
      all: assert (Hw' : 0 <= w' <= 6) by (subst w'; lia).
      all: assert (Ew' : exists k, w0 + 53 * 7 - calcDaysInYear (year t - 1)
                                   = 7 * k + w')
        by (exists ((w0 + 53 * 7 - calcDaysInYear (year t - 1)) ÷ 7);
            subst w'; rewrite L; lia).
      all: destruct Ew' as [k Ek]; rewrite L in Ek, C.
      all: assert (N : Z.rem (w' + calcDaysInYear (year t - 1)) 7 = w0)
        by (rewrite L; lia).
      all: rewrite L in N; rewrite N in C; rewrite A in C; clearbody w'.
      all: destruct C as (_ & [C|C]);
        [ destruct C as (_ & _ & _ & _ & _ & C); discriminate C |].
      all: destruct C as (_ & -> & -> & _).
      all: destruct (week1Later_cases fw w') as [(B & B1 & B2)|(B & B1 & B2)];
        rewrite B.
      all: assert (R : 51 <= (dn - (fd - calcDaysInYear (year t - 1)) + w'
                              - (if week1Later fw w' then 7 else 0)) ÷ 7 <= 52)
        by (rewrite L, B; lia).
      all: rewrite L, B in R.
      all: match goal with
           | |- (?q + 1, _) = _ \/ _ =>
               destruct (Z.eq_dec q 51) as [Q|Q];
               [left; rewrite Q; reflexivity
               | right; replace q with 52 by lia; reflexivity]
           end.
    + left. repeat split; reflexivity.
  - rewrite andb_false_r. right; left. split; [reflexivity|].
    destruct (calcDaysInYear_values (year t - 1)) as [L|L]; rewrite L.
    all: match goal with
         | |- context [calcWeekCount ?a ?b ?c ?y ?d ?f ?w] =>
             pose proof (calcWeekCount_cases a b c y d f w
               ltac:(change (2 ^ 40) with 1099511627776; lia)
               ltac:(change (2 ^ 40) with 1099511627776; lia)
               ltac:(change (2 ^ 40) with 1099511627776; lia)
               ltac:(lia)) as C;
             cbv zeta in C;
             destruct (calcWeekCount a b c y d f w) as [w1 oy de inc];
             set (w' := w) in *
         end.
    all: cbn [week owningYear decremented incremented] in C |- *.
    all: assert (Hw' : 0 <= w' <= 6) by (subst w'; lia).
    all: assert (N : Z.rem (w' + calcDaysInYear (year t - 1)) 7 = w0)
      by (subst w'; rewrite L; lia).
    all: assert (Ek : w' = Z.rem (w0 + 53 * 7 - calcDaysInYear (year t - 1)) 7)
      by (subst w'; rewrite L; reflexivity).
    all: rewrite L in N, Ek, C; rewrite N in C; rewrite A in C; clearbody w'.
    all: destruct C as (_ & [C|C]).
    all: try (destruct C as (_ & -> & -> & _); f_equal; lia).
    all: destruct C as (_ & _ & _ & [C|[C|C]]); try discriminate C.
    all: exfalso.
    all: destruct (week1Later_cases fw w') as [(B & B1 & B2)|(B & B1 & B2)];
      rewrite B in C; destruct fw; try (specialize (A2 eq_refl));
      try (specialize (B2 eq_refl)); lia.
Qed.

Lemma calcWeek_early_january_witness :
  calcWeek (date 2000 1 1) 2%N = (52, 1999) \/
  calcWeek (date 2000 1 1) 2%N = (53, 1999).
Proof.
  destruct (calcWeek_early_january (date 2000 1 1) 2%N
              ltac:(constructor; simpl; lia) ltac:(simpl; lia) eq_refl)
    as [(_ & H & _)|[(H & _)|(_ & _ & H)]];
    [vm_compute in H; discriminate H | vm_compute in H; discriminate H
    | exact H].
Defined.

(** ** Moving a date *)

Lemma withDay_wf (t : mysqlTime) (d : Z) :
  mysqlTime_wf t -> 0 <= d < 2 ^ 8 -> mysqlTime_wf (withDay t d).
Proof. intros [? ? ? ? ? ? ?] H. constructor; assumption. Qed.

(** X7. Seven days later in the same month is the next week of the same
    year, for a date with a month in 1..12 that is not on the
    early-January path. *)
Theorem calcWeek_seven_days_later (t : mysqlTime) (wb : weekBehaviour) :
  mysqlTime_wf t -> 1 <= month t <= 12 -> 1 <= day t -> day t + 7 <= 31 ->
  earlyJanuary t wb = false ->
  calcWeek (withDay t (day t + 7)) wb
  = (fst (calcWeek t wb) + 1, snd (calcWeek t wb)).
Proof.
  intros W HM HD1 HD2 E.
  assert (W' : mysqlTime_wf (withDay t (day t + 7)))
    by (apply withDay_wf; [exact W | change (2 ^ 8) with 256; lia]).
  assert (E' : earlyJanuary (withDay t (day t + 7)) wb = false).
  { destruct (calcWeekTrace_nowrap t wb W) as (Hw0 & EE & _).
    destruct (calcWeekTrace_nowrap (withDay t (day t + 7)) wb W')
      as (_ & EE' & _).
    cbv zeta in *. rewrite EE'. rewrite E in EE. symmetry in EE.
    change (weekdayOfJan1 (withDay t (day t + 7)) wb)
      with (weekdayOfJan1 t wb).
    cbn [month day withDay].
    apply andb_false_iff in EE. apply andb_false_iff.
    destruct EE as [EE|EE]; [left; exact EE | right].
    apply Z.leb_gt in EE. apply Z.leb_gt. lia. }
  destruct (calcWeek_outside_early t wb W HM ltac:(lia) E) as [B CT].
  destruct (calcWeek_outside_early (withDay t (day t + 7)) wb W' HM
              ltac:(cbn [day withDay]; lia) E') as [B' CT'].
  unfold calcWeek. rewrite CT, CT'.
  cbn [week owningYear fst snd]. cbn [year withDay].
  assert (S : daysFromWeek1 (withDay t (day t + 7)) wb
              = daysFromWeek1 t wb + 7).
  { unfold daysFromWeek1.
    change (weekdayOfJan1 (withDay t (day t + 7)) wb)
      with (weekdayOfJan1 t wb).
    cbn [year month day withDay].
    destruct W as [HY _ _ _ _ _ _]. change (2 ^ 16) with 65536 in HY.
    rewrite !calcDaynr_nowrap by lia.
    rewrite !(dayNumber_unfold (year t) (month t)) by lia. lia. }
  rewrite S. f_equal. lia.
Qed.

Lemma calcWeek_seven_days_later_witness :
  calcWeek (withDay (date 2016 5 10) (10 + 7)) 0%N
  = (fst (calcWeek (date 2016 5 10) 0%N) + 1,
     snd (calcWeek (date 2016 5 10) 0%N)).
Proof.
  apply (calcWeek_seven_days_later (date 2016 5 10) 0%N);
    [constructor; simpl; lia | simpl; lia | simpl; lia | simpl; lia
    | reflexivity].
Defined.

Lemma leapDays_400 (y : Z) : 0 <= y -> leapDays (y + 400) = leapDays y + 97.
Proof.
  intros H. rewrite !leapDays_div by lia. lia.
Qed.

Lemma calcDaysInYear_400 (y : Z) :
  1 <= y -> calcDaysInYear (y + 400) = calcDaysInYear y.
Proof.
  intros H.
  pose proof (calcDaysInYear_366 y) as Q.
  pose proof (calcDaysInYear_366 (y + 400)) as Q'.
  assert (M4 : (y + 400) mod 4 = y mod 4) by lia.
  assert (M100 : (y + 400) mod 100 = y mod 100) by lia.
  assert (M400 : (y + 400) mod 400 = y mod 400) by lia.
  rewrite M4, M100, M400 in Q'.
  destruct (calcDaysInYear_values y) as [L|L],
    (calcDaysInYear_values (y + 400)) as [L'|L']; rewrite L, L' in *;
    try reflexivity; exfalso.
  - assert (C : 365 = 366); [|discriminate C].
    apply Q. destruct Q' as [Q' _]. specialize (Q' eq_refl).
    split; [tauto|]. destruct Q' as [_ [C|[C _]]]; [tauto|].
    right. split; [exact C | lia].
  - assert (C : 365 = 366); [|discriminate C].
    apply Q'. destruct Q as [Q _]. specialize (Q eq_refl).
    split; [tauto|]. destruct Q as [_ [C|[C _]]]; [tauto|].
    right. split; [exact C | lia].
Qed.

Lemma dayNumber_400 (y m d : Z) :
  1 <= y -> dayNumber (y + 400) m d = dayNumber y m d + 146097.
Proof.
  intros H. unfold dayNumber.
  replace (y + 400 =? 0) with false by (symmetry; apply Z.eqb_neq; lia).
  replace (y =? 0) with false by (symmetry; apply Z.eqb_neq; lia).
  cbn [andb]. cbv zeta.
  destruct (m <=? 2); rewrite <- !Z.add_sub_assoc.
  - fold (leapDays (y + (400 - 1))). fold (leapDays (y - 1)).
    replace (y + (400 - 1)) with (y - 1 + 400) by lia.
    rewrite leapDays_400 by lia. lia.
  - fold (leapDays (y + 400)). fold (leapDays y).
    rewrite leapDays_400 by lia. lia.
Qed.

Lemma withYear_wf (t : mysqlTime) (y : Z) :
  mysqlTime_wf t -> 0 <= y < 2 ^ 16 -> mysqlTime_wf (withYear t y).
Proof. intros [? ? ? ? ? ? ?] H. constructor; assumption. Qed.

Lemma calcWeekCount_shift (fw wy dec : bool) (yr dn fd wd k : Z) :
  - 2 ^ 30 <= dn <= 2 ^ 30 -> - 2 ^ 30 <= fd <= 2 ^ 30 ->
  0 <= k <= 2 ^ 30 -> - 2 ^ 30 <= yr <= 2 ^ 30 -> 0 <= wd <= 6 ->
  calcDaysInYear (yr + k) = calcDaysInYear yr ->
  let r := calcWeekCount fw wy dec yr dn fd wd in
  calcWeekCount fw wy dec (yr + k) (dn + 146097) (fd + 146097) wd
  = WeekResult (week r) (owningYear r + k) (decremented r) (incremented r).
Proof.
  intros Hd Hf Hk Hy Hw L. cbv zeta.
  change (2 ^ 30) with 1073741824 in *.
  unfold calcWeekCount. rewrite L.
  replace (dn + 146097 - (fd + 146097 + 7 - wd)) with (dn - (fd + 7 - wd))
    by lia.
  replace (dn + 146097 - (fd + 146097 - wd)) with (dn - (fd - wd)) by lia.
  match goal with
  | |- context [if ?b then WeekResult 1 _ _ _ else _] => destruct b
  end; cbn [week owningYear decremented incremented]; unwrap;
    f_equal; lia.
Qed.

(** X8. The weeks repeat every 400 years: for a year from 2 on, the same
    month and day 400 years later have the same week, and the owning year
    is 400 more.  This holds for every month and day field, calendar date
    or not. *)
Theorem calcWeek_400_years (t : mysqlTime) (wb : weekBehaviour) :
  mysqlTime_wf t -> 2 <= year t -> year t + 400 < 2 ^ 16 ->
  calcWeek (withYear t (year t + 400)) wb
  = (fst (calcWeek t wb), snd (calcWeek t wb) + 400).
Proof.
  intros W H2 H400.
  assert (W' : mysqlTime_wf (withYear t (year t + 400)))
    by (apply withYear_wf; [exact W | lia]).
  destruct (calcWeekTrace_nowrap t wb W) as (Hw0 & EE & CT).
  destruct (calcWeekTrace_nowrap (withYear t (year t + 400)) wb W')
    as (_ & EE' & CT').
  cbv zeta in *. cbn [year month day withYear] in *.
  destruct W as [HY HM HD _ _ _ _].
  pose proof (dayNumber_jan1 _ HY) as J.
  pose proof (dayNumber_bound _ _ _ HY HM HD) as Bd.
  change (2 ^ 16) with 65536 in *. change (2 ^ 25) with 33554432 in J.
  change (2 ^ 26) with 67108864 in Bd.
  assert (Ew : weekdayOfJan1 (withYear t (year t + 400)) wb
               = weekdayOfJan1 t wb).
  { unfold weekdayOfJan1. cbn [year withYear].
    rewrite !calcDaynr_nowrap by lia.
    rewrite dayNumber_400 by lia.
    rewrite !calcWeekday_nowrap
      by (rewrite ?min_int_val, ?max_int_val; lia).
    destruct (negb (test wb weekBehaviourMondayFirst)); lia. }
  rewrite Ew in *.
  assert (Ee : earlyJanuary (withYear t (year t + 400)) wb
               = earlyJanuary t wb) by (rewrite EE, EE'; reflexivity).
  rewrite Ee in CT'.
  rewrite !dayNumber_400 in CT' by lia.
  replace (year t + 400 - 1) with (year t - 1 + 400) in CT' by lia.
  rewrite (calcDaysInYear_400 (year t - 1)) in CT' by lia.
  unfold calcWeek. rewrite CT, CT'.
  set (w0 := weekdayOfJan1 t wb) in *. clearbody w0.
  destruct (earlyJanuary t wb).
  - destruct (negb (test wb weekBehaviourWeekYear)
              && week1Later (test wb weekBehaviourWeekFirstWeekday) w0).
    + reflexivity.
    + destruct (calcDaysInYear_values (year t - 1)) as [L|L]; rewrite L.
      all: replace (dayNumber (year t) 1 1 + 146097 - _)
             with (dayNumber (year t) 1 1 - calcDaysInYear (year t - 1)
                   + 146097) by (rewrite L; lia).
      all: rewrite L.
      all: rewrite calcWeekCount_shift;
        [ reflexivity | change (2 ^ 30) with 1073741824; lia ..
        | apply calcDaysInYear_400; lia ].
  - rewrite calcWeekCount_shift;
      [ reflexivity | change (2 ^ 30) with 1073741824; lia ..
      | apply calcDaysInYear_400; lia ].
Qed.

Lemma calcWeek_400_years_witness :
  calcWeek (withYear (date 1600 12 31) (1600 + 400)) 2%N
  = (fst (calcWeek (date 1600 12 31) 2%N),
     snd (calcWeek (date 1600 12 31) 2%N) + 400).
Proof.
  apply (calcWeek_400_years (date 1600 12 31) 2%N);
    [constructor; simpl; lia | simpl; lia | simpl; lia].
Defined.

(** * Further properties of the conversion to absolute time *)

Lemma absDate_parts (abs : Z) :
  gotime.absDate abs true =
    let '(y, yd) := yearAndDay (abs / gotime.secondsPerDay) in
    let '(m, d) := monthAndDay (gotime.isLeap y) yd in
    (y, m, d, yd).
Proof.
  unfold gotime.absDate, yearAndDay, monthAndDay. cbv zeta. cbn [negb].
  cbv iota.
  match goal with
  | |- (if ?c then _ else _) = _ => destruct c
  end; [reflexivity|].
  match goal with
  | |- context [if ?c then (_ + 1, _) else _] => destruct c
  end; reflexivity.
Qed.

Lemma absDate_yday (abs : Z) :
  gotime.absDate abs false =
    let '(y, yd) := yearAndDay (abs / gotime.secondsPerDay) in (y, 0, 0, yd).
Proof. reflexivity. Qed.

Lemma isLeap_mod (y : Z) :
  gotime.isLeap y = true <->
  y mod 4 = 0 /\ (y mod 100 <> 0 \/ y mod 400 = 0).
Proof.
  unfold gotime.isLeap.
  destruct (Z.eqb_spec (Z.rem y 4) 0), (Z.eqb_spec (Z.rem y 100) 0),
    (Z.eqb_spec (Z.rem y 400) 0); cbn [negb andb orb];
    split; intros; try discriminate; try reflexivity; try lia.
Qed.

(** A year written by its place in the 400-year cycle. *)
Lemma isLeap_cycle (n400 n100 n4 n1 : Z) :
  0 <= n100 <= 3 -> 0 <= n4 <= 24 -> 0 <= n1 <= 3 ->
  gotime.isLeap (400 * n400 + 100 * n100 + 4 * n4 + n1
                 + gotime.absoluteZeroYear) = true
  <-> n1 = 3 /\ (n4 <> 24 \/ n100 = 3).
Proof.
  intros H100 H4 H1. rewrite isLeap_mod.
  unfold gotime.absoluteZeroYear. lia.
Qed.

Lemma shiftr_2 (n : Z) : Z.shiftr n 2 = n / 4.
Proof. rewrite Z.shiftr_div_pow2 by lia. reflexivity. Qed.

Lemma daysSinceEpoch_cycle (n400 n100 n4 n1 : Z) :
  0 <= n100 <= 3 -> 0 <= n4 <= 24 -> 0 <= n1 <= 3 ->
  daysSinceEpoch (400 * n400 + 100 * n100 + 4 * n4 + n1
                  + gotime.absoluteZeroYear)
  = 146097 * n400 + 36524 * n100 + 1461 * n4 + 365 * n1.
Proof.
  intros H100 H4 H1. unfold daysSinceEpoch. cbv zeta.
  change gotime.daysPer400Years with 146097.
  change gotime.daysPer100Years with 36524.
  change gotime.daysPer4Years with 1461.
  replace (400 * n400 + 100 * n100 + 4 * n4 + n1 + gotime.absoluteZeroYear
           - gotime.absoluteZeroYear)
    with (400 * n400 + 100 * n100 + 4 * n4 + n1) by lia.
  set (y := 400 * n400 + 100 * n100 + 4 * n4 + n1).
  assert (E400 : y / 400 = n400) by (subst y; lia).
  rewrite E400.
  assert (E100 : (y - 400 * n400) / 100 = n100) by (subst y; lia).
  rewrite E100.
  assert (E4 : (y - 400 * n400 - 100 * n100) / 4 = n4) by (subst y; lia).
  rewrite E4. subst y. lia.
Qed.

Lemma year_cycle (y : Z) :
  exists n400 n100 n4 n1,
    0 <= n100 <= 3 /\ 0 <= n4 <= 24 /\ 0 <= n1 <= 3 /\
    y = 400 * n400 + 100 * n100 + 4 * n4 + n1 + gotime.absoluteZeroYear.
Proof.
  set (z := y - gotime.absoluteZeroYear).
  exists (z / 400), (z mod 400 / 100), (z mod 100 / 4), (z mod 4).
  assert (y = z + gotime.absoluteZeroYear) by (subst z; lia).
  clearbody z. repeat split; try lia.
Qed.

(** Where [yearAndDay] puts a day count in the cycles of 400, 100 and 4
    years. *)
Lemma yearAndDay_cycle (d : Z) :
  exists n400 n100 n4 n1 yd,
    0 <= n100 <= 3 /\ 0 <= n4 <= 24 /\ 0 <= n1 <= 3 /\ 0 <= yd <= 365 /\
    (yd = 365 -> n1 = 3 /\ (n4 <> 24 \/ n100 = 3)) /\
    d = 146097 * n400 + 36524 * n100 + 1461 * n4 + 365 * n1 + yd /\
    yearAndDay d = (400 * n400 + 100 * n100 + 4 * n4 + n1
                    + gotime.absoluteZeroYear, yd).
Proof.
  unfold yearAndDay. cbv zeta. rewrite !shiftr_2.
  change gotime.daysPer400Years with 146097.
  change gotime.daysPer100Years with 36524.
  change gotime.daysPer4Years with 1461.
  set (n400 := d / 146097).
  set (d1 := d - 146097 * n400).
  assert (H1 : 0 <= d1 <= 146096) by (subst d1 n400; lia).
  set (q100 := d1 / 36524).
  assert (Hq100 : 0 <= q100 <= 4) by (subst q100; lia).
  set (n100 := q100 - q100 / 4).
  assert (Hn100 : 0 <= n100 <= 3 /\ (q100 = 4 -> n100 = 3)
                  /\ (q100 <= 3 -> n100 = q100)) by (subst n100; lia).
  set (d2 := d1 - 36524 * n100).
  assert (H2 : 0 <= d2 <= 36524 /\ (d2 = 36524 -> n100 = 3))
    by (subst d2 q100; lia).
  set (n4 := d2 / 1461).
  assert (Hn4 : 0 <= n4 <= 24) by (subst n4; lia).
  set (d3 := d2 - 1461 * n4).
  assert (H3 : 0 <= d3 <= 1460 /\ (n4 = 24 -> d3 = 1460 -> n100 = 3))
    by (subst d3 n4; lia).
  set (q1 := d3 / 365).
  assert (Hq1 : 0 <= q1 <= 4) by (subst q1; lia).
  set (n1 := q1 - q1 / 4).
  assert (Hn1 : 0 <= n1 <= 3 /\ (q1 = 4 -> n1 = 3) /\ (q1 <= 3 -> n1 = q1))
    by (subst n1; lia).
  set (yd := d3 - 365 * n1).
  assert (H4 : 0 <= yd <= 365 /\ (yd = 365 -> n1 = 3 /\ d3 = 1460))
    by (subst yd q1; lia).
  exists n400, n100, n4, n1, yd.
  repeat split; try lia.
Qed.

Lemma yearAndDay_unique (n400 n100 n4 n1 yd : Z) :
  0 <= n100 <= 3 -> 0 <= n4 <= 24 -> 0 <= n1 <= 3 -> 0 <= yd <= 365 ->
  (yd = 365 -> n1 = 3 /\ (n4 <> 24 \/ n100 = 3)) ->
  yearAndDay (146097 * n400 + 36524 * n100 + 1461 * n4 + 365 * n1 + yd)
  = (400 * n400 + 100 * n100 + 4 * n4 + n1 + gotime.absoluteZeroYear, yd).
Proof.
  intros H100 H4 H1 Hyd Hleap.
  unfold yearAndDay. cbv zeta. rewrite !shiftr_2.
  change gotime.daysPer400Years with 146097.
  change gotime.daysPer100Years with 36524.
  change gotime.daysPer4Years with 1461.
  set (d := 146097 * n400 + 36524 * n100 + 1461 * n4 + 365 * n1 + yd).
  assert (E400 : d / 146097 = n400) by (subst d; lia).
  rewrite E400.
  set (d1 := d - 146097 * n400).
  assert (Ed1 : d1 = 36524 * n100 + 1461 * n4 + 365 * n1 + yd)
    by (subst d1 d; lia).
  clearbody d1. clear E400. clearbody d.
  set (q100 := d1 / 36524).
  assert (E100 : q100 - q100 / 4 = n100) by (subst q100; lia).
  rewrite E100.
  set (d2 := d1 - 36524 * n100).
  assert (Ed2 : d2 = 1461 * n4 + 365 * n1 + yd) by (subst d2; lia).
  clearbody d2 q100.
  assert (E4 : d2 / 1461 = n4) by lia.
  rewrite E4.
  set (d3 := d2 - 1461 * n4).
  assert (Ed3 : d3 = 365 * n1 + yd) by (subst d3; lia).
  clearbody d3.
  set (q1 := d3 / 365).
  assert (E1 : q1 - q1 / 4 = n1) by (subst q1; lia).
  rewrite E1. f_equal; lia.
Qed.

Lemma yearAndDay_spec (d : Z) :
  let '(y, yd) := yearAndDay d in
  0 <= yd <= (if gotime.isLeap y then 365 else 364)
  /\ d = daysSinceEpoch y + yd.
Proof.
  destruct (yearAndDay_cycle d)
    as (n400 & n100 & n4 & n1 & yd & H100 & H4 & H1 & Hyd & Hl & Ed & E).
  rewrite E.
  rewrite daysSinceEpoch_cycle by assumption.
  split; [|exact Ed].
  pose proof (isLeap_cycle n400 n100 n4 n1 H100 H4 H1) as IL.
  destruct (gotime.isLeap _); [lia|].
  assert (yd <> 365); [|lia].
  intros Y. apply Hl in Y. apply IL in Y. discriminate Y.
Qed.

Lemma yearAndDay_daysSinceEpoch (y yd : Z) :
  0 <= yd <= (if gotime.isLeap y then 365 else 364) ->
  yearAndDay (daysSinceEpoch y + yd) = (y, yd).
Proof.
  intros H.
  destruct (year_cycle y) as (n400 & n100 & n4 & n1 & H100 & H4 & H1 & ->).
  rewrite daysSinceEpoch_cycle by assumption.
  pose proof (isLeap_cycle n400 n100 n4 n1 H100 H4 H1) as IL.
  apply yearAndDay_unique; try assumption.
  - destruct (gotime.isLeap _); lia.
  - intros Y. apply IL. destruct (gotime.isLeap _); [reflexivity | lia].
Qed.

Lemma upto_forallb (P : Z -> bool) (n : nat) :
  forallb P (upto n) = true ->
  forall z, 0 <= z < Z.of_nat n -> P z = true.
Proof.
  intros H z Hz. rewrite forallb_forall in H. apply H.
  unfold upto. apply in_map_iff. exists (Z.to_nat z).
  split; [lia|]. apply in_seq. lia.
Qed.

(** [monthAndDay] on every day of a year, checked day by day. *)
Lemma monthAndDay_spec (leap : bool) (yd : Z) :
  0 <= yd <= (if leap then 365 else 364) ->
  let '(m, d) := monthAndDay leap yd in
  1 <= m <= 12 /\ 1 <= d <= monthLength leap m /\
  yd = gotime.daysBeforeAt (m - 1)
       + (if leap && (gotime.March <=? m) then 1 else 0) + (d - 1).
Proof.
  intros H.
  set (P := fun l z =>
    let '(m, d) := monthAndDay l z in
    (1 <=? m) && (m <=? 12) && (1 <=? d) && (d <=? monthLength l m)
    && (z =? gotime.daysBeforeAt (m - 1)
             + (if l && (gotime.March <=? m) then 1 else 0) + (d - 1))).
  assert (A : P leap yd = true).
  { destruct leap.
    - apply (upto_forallb (P true) 366); [vm_compute; reflexivity | lia].
    - apply (upto_forallb (P false) 365); [vm_compute; reflexivity | lia]. }
  unfold P in A. destruct (monthAndDay leap yd) as [m d].
  repeat (apply andb_true_iff in A; destruct A as [A ?]).
  repeat match goal with
         | H : (_ <=? _) = true |- _ => apply Z.leb_le in H
         | H : (_ =? _) = true |- _ => apply Z.eqb_eq in H
         end.
  lia.
Qed.

(** The way back: the day of the year of a month and day. *)
Lemma monthAndDay_dayOfYear (leap : bool) (m d : Z) :
  1 <= m <= 12 -> 1 <= d <= monthLength leap m ->
  let yd := gotime.daysBeforeAt (m - 1)
            + (if leap && (gotime.March <=? m) then 1 else 0) + (d - 1) in
  0 <= yd <= (if leap then 365 else 364) /\ monthAndDay leap yd = (m, d).
Proof.
  intros Hm Hd. cbv zeta.
  set (P := fun l i j =>
    let m := i + 1 in let d := j + 1 in
    let yd := gotime.daysBeforeAt (m - 1)
              + (if l && (gotime.March <=? m) then 1 else 0) + (d - 1) in
    negb (d <=? monthLength l m)
    || ((0 <=? yd) && (yd <=? (if l then 365 else 364))
        && (let '(m', d') := monthAndDay l yd in (m' =? m) && (d' =? d)))).
  assert (B : monthLength leap m <= 31).
  { assert (Q : (monthLength leap m <=? 31) = true).
    { replace m with (m - 1 + 1) by lia.
      apply (upto_forallb (fun i => monthLength leap (i + 1) <=? 31) 12);
        [destruct leap; vm_compute; reflexivity | lia]. }
    apply Z.leb_le in Q. exact Q. }
  assert (A : P leap (m - 1) (d - 1) = true).
  { assert (F : forallb (P leap (m - 1)) (upto 31) = true).
    { apply (upto_forallb (fun i => forallb (P leap i) (upto 31)) 12);
        [destruct leap; vm_compute; reflexivity | lia]. }
    apply (upto_forallb (P leap (m - 1)) 31); [exact F | lia]. }
  unfold P in A. cbv zeta in A.
  replace (m - 1 + 1) with m in A by lia.
  replace (d - 1 + 1) with d in A by lia.
  apply orb_true_iff in A. destruct A as [A|A].
  - apply negb_true_iff, Z.leb_gt in A. lia.
  - repeat (apply andb_true_iff in A; destruct A as [A ?]).
    destruct (monthAndDay leap _) as [m' d'].
    match goal with
    | H : (_ =? _) && (_ =? _) = true |- _ =>
        apply andb_true_iff in H; destruct H as [H1 H2];
        apply Z.eqb_eq in H1; apply Z.eqb_eq in H2
    end.
    repeat match goal with
           | H : (_ <=? _) = true |- _ => apply Z.leb_le in H
           end.
    split; [lia | congruence].
Qed.

Lemma norm_id (hi lo base : Z) :
  0 <= lo < base -> gotime.norm hi lo base = (hi, lo).
Proof.
  intros H. unfold gotime.norm.
  destruct (Z.ltb_spec lo 0); [lia|].
  destruct (Z.leb_spec base lo); [lia | reflexivity].
Qed.

Lemma norm_nsec_range (hi lo : Z) :
  0 <= snd (gotime.norm hi lo 1000000000) < 1000000000.
Proof.
  unfold gotime.norm.
  destruct (Z.ltb_spec lo 0);
    match goal with
    | |- context [?b <=? ?x] => destruct (Z.leb_spec b x)
    end; cbn [snd]; lia.
Qed.

Lemma dateAbs_nsec (y m d h mi s ns : Z) :
  0 <= snd (gotime.dateAbs y m d h mi s ns) < 1000000000.
Proof.
  unfold gotime.dateAbs.
  pose proof (norm_nsec_range s ns) as R.
  destruct (gotime.norm y (m - 1) 12) as [y' m'].
  destruct (gotime.norm s ns 1000000000) as [s' ns'].
  destruct (gotime.norm mi s' 60) as [mi' s''].
  destruct (gotime.norm h mi' 60) as [h' mi''].
  destruct (gotime.norm d h' 24) as [d' h''].
  exact R.
Qed.

Lemma dateAbs_valid (y m d h mi s ns : Z) :
  1 <= m <= 12 -> 0 <= h < 24 -> 0 <= mi < 60 -> 0 <= s < 60 ->
  0 <= ns < 1000000000 ->
  gotime.dateAbs y m d h mi s ns
  = ((daysSinceEpoch y + dayOfYear y m d) * gotime.secondsPerDay
     + secondOfDay h mi s, ns).
Proof.
  intros Hm Hh Hmi Hs Hns. unfold gotime.dateAbs.
  rewrite !norm_id by lia.
  replace (m - 1 + 1) with m by lia.
  unfold daysSinceEpoch, dayOfYear, secondOfDay. cbv zeta.
  destruct (gotime.isLeap y && (gotime.March <=? m)); f_equal; ring.
Qed.

Lemma absClock_range (abs : Z) :
  let '(h, mi, s) := gotime.absClock abs in
  0 <= h < 24 /\ 0 <= mi < 60 /\ 0 <= s < 60.
Proof.
  unfold gotime.absClock. cbv zeta.
  change gotime.secondsPerDay with 86400.
  change gotime.secondsPerHour with 3600.
  change gotime.secondsPerMinute with 60.
  set (x := abs mod 86400).
  assert (Hx : 0 <= x < 86400) by (subst x; lia). clearbody x.
  lia.
Qed.

Lemma absClock_secondOfDay (D h mi s : Z) :
  0 <= h < 24 -> 0 <= mi < 60 -> 0 <= s < 60 ->
  (D * gotime.secondsPerDay + secondOfDay h mi s) / gotime.secondsPerDay = D
  /\ gotime.absClock (D * gotime.secondsPerDay + secondOfDay h mi s)
     = (h, mi, s).
Proof.
  intros Hh Hmi Hs. unfold gotime.absClock, secondOfDay. cbv zeta.
  change gotime.secondsPerDay with 86400.
  change gotime.secondsPerHour with 3600.
  change gotime.secondsPerMinute with 60.
  set (x := h * 3600 + mi * 60 + s).
  assert (Hx : 0 <= x < 86400) by (subst x; lia).
  assert (E : (D * 86400 + x) mod 86400 = x) by lia.
  rewrite E. split; [lia|].
  assert (Eh : x / 3600 = h) by (subst x; lia). rewrite Eh.
  assert (Em : (x - h * 3600) / 60 = mi) by (subst x; lia). rewrite Em.
  subst x. f_equal. lia.
Qed.

(** The fields [GoTime] compares with, from the parts of [gotime.Date]. *)
Lemma civilFields_dateOf (Local : gotime.Location) (t : mysqlTime) :
  civilFields (dateOf Local t) =
    let a := gotime.dateAbs (year t) (month t) (day t) (hour t) (minute t)
               (second t) (wrap64 (microsecond t * 1000)) in
    let '(y, yd) := yearAndDay (fst a / gotime.secondsPerDay) in
    let '(m, d) := monthAndDay (gotime.isLeap y) yd in
    let '(h, mi, s) := gotime.absClock (fst a) in
    MysqlTime y m d h mi s (snd a ÷ 1000).
Proof.
  unfold civilFields, dateOf, gotime.Time_Date, gotime.Clock,
    Year, Month, Day, Hour, Minute, Second, Microsecond.
  rewrite abs_Date, Nanosecond_Date, absDate_parts. cbv zeta.
  destruct (yearAndDay _) as [y yd].
  destruct (monthAndDay _ _) as [m d]. reflexivity.
Qed.

(** The fields re-derived from any time [gotime.Date] builds are a date
    of the calendar and a time of the day. *)
Lemma civilFields_valid (Local : gotime.Location) (t : mysqlTime) :
  validCivil (civilFields (dateOf Local t)) = true.
Proof.
  rewrite civilFields_dateOf. cbv zeta.
  set (a := gotime.dateAbs _ _ _ _ _ _ _).
  pose proof (dateAbs_nsec (year t) (month t) (day t) (hour t) (minute t)
                (second t) (wrap64 (microsecond t * 1000))) as N.
  fold a in N.
  pose proof (yearAndDay_spec (fst a / gotime.secondsPerDay)) as Y.
  destruct (yearAndDay _) as [y yd]. destruct Y as [Y _].
  pose proof (monthAndDay_spec (gotime.isLeap y) yd Y) as M.
  destruct (monthAndDay _ _) as [m d].
  pose proof (absClock_range (fst a)) as C.
  destruct (gotime.absClock _) as [[h mi] s].
  unfold validCivil, daysIn.
  cbn [year month day hour minute second microsecond].
  destruct M as (M1 & M2 & _). destruct C as (C1 & C2 & C3).
  repeat (apply andb_true_iff; split);
    first [apply Z.leb_le | apply Z.ltb_lt]; lia.
Qed.

(** A valid civil time is re-derived unchanged. *)
Lemma civilFields_round_trip (Local : gotime.Location) (t : mysqlTime) :
  mysqlTime_wf t -> validCivil t = true -> civilFields (dateOf Local t) = t.
Proof.
  intros W V. unfold validCivil, daysIn in V.
  repeat (apply andb_true_iff in V; destruct V as [V ?]).
  repeat match goal with
         | H : (_ <=? _) = true |- _ => apply Z.leb_le in H
         | H : (_ <? _) = true |- _ => apply Z.ltb_lt in H
         end.
  destruct W as [HY HM HD HH HMI HS HU].
  change (2 ^ 32) with 4294967296 in HU. change (2 ^ 8) with 256 in *.
  rewrite civilFields_dateOf. cbv zeta.
  rewrite (wrap64_id (microsecond t * 1000))
    by (rewrite min_int_val, max_int_val; lia).
  rewrite dateAbs_valid by lia. cbn [fst snd].
  destruct (absClock_secondOfDay
              (daysSinceEpoch (year t) + dayOfYear (year t) (month t) (day t))
              (hour t) (minute t) (second t)) as [ED EC]; try lia.
  rewrite ED, EC.
  destruct (monthAndDay_dayOfYear (gotime.isLeap (year t)) (month t) (day t))
    as [R MD]; try lia.
  cbv zeta in R, MD.
  assert (EY : dayOfYear (year t) (month t) (day t)
               = gotime.daysBeforeAt (month t - 1)
                 + (if gotime.isLeap (year t) && (gotime.March <=? month t)
                    then 1 else 0) + (day t - 1)) by reflexivity.
  rewrite <- EY in R, MD.
  rewrite yearAndDay_daysSinceEpoch by exact R.
  rewrite MD.
  replace ((microsecond t * 1000) ÷ 1000) with (microsecond t) by lia.
  destruct t; reflexivity.
Qed.



Lemma GoTime_valid (Local : gotime.Location) (t : mysqlTime) :
  mysqlTime_wf t -> validCivil t = true ->
  GoTime Local t = (dateOf Local t, None).
Proof.
  intros W V.
  destruct (GoTime_dateOf Local t) as (E & Hok & _).
  rewrite (surjective_pairing (GoTime Local t)), E, Hok; [reflexivity|].
  apply civilFields_round_trip; assumption.
Qed.

Lemma validCivil_fields (t : mysqlTime) :
  validCivil t = true ->
  1 <= month t <= 12 /\ 1 <= day t <= daysIn (year t) (month t) /\
  0 <= daysIn (year t) (month t) <= 31 /\
  hour t < 24 /\ minute t < 60 /\ second t < 60 /\ microsecond t < 1000000.
Proof.
  intros V. unfold validCivil in V.
  repeat (apply andb_true_iff in V; destruct V as [V ?]).
  repeat match goal with
         | H : (_ <=? _) = true |- _ => apply Z.leb_le in H
         | H : (_ <? _) = true |- _ => apply Z.ltb_lt in H
         end.
  assert (Q : (daysIn (year t) (month t) <=? 31) = true).
  { unfold daysIn. replace (month t) with (month t - 1 + 1) by lia.
    apply (upto_forallb
             (fun i => monthLength (gotime.isLeap (year t)) (i + 1) <=? 31)
             12);
      [destruct (gotime.isLeap (year t)); vm_compute; reflexivity | lia]. }
  apply Z.leb_le in Q. lia.
Qed.

(** The absolute seconds of the time built for a valid civil time. *)
Lemma abs_dateOf_valid (Local : gotime.Location) (t : mysqlTime) :
  mysqlTime_wf t -> validCivil t = true ->
  gotime.abs (dateOf Local t)
  = (daysSinceEpoch (year t) + dayOfYear (year t) (month t) (day t))
    * gotime.secondsPerDay + secondOfDay (hour t) (minute t) (second t).
Proof.
  intros W V. apply validCivil_fields in V.
  destruct W as [HY HM HD HH HMI HS HU].
  change (2 ^ 32) with 4294967296 in HU. change (2 ^ 8) with 256 in *.
  unfold dateOf, Year, Month, Day, Hour, Minute, Second, Microsecond.
  rewrite abs_Date.
  rewrite (wrap64_id (microsecond t * 1000))
    by (rewrite min_int_val, max_int_val; lia).
  rewrite dateAbs_valid by lia. reflexivity.
Qed.

Lemma dayOfYear_range (t : mysqlTime) :
  validCivil t = true ->
  0 <= dayOfYear (year t) (month t) (day t)
    <= (if gotime.isLeap (year t) then 365 else 364).
Proof.
  intros V. apply validCivil_fields in V. unfold daysIn in V.
  destruct (monthAndDay_dayOfYear (gotime.isLeap (year t)) (month t) (day t)
              ltac:(lia) ltac:(lia)) as [R _].
  exact R.
Qed.

(** Go's day of the year of the time built for a valid civil time. *)
Lemma YearDay_dateOf (Local : gotime.Location) (t : mysqlTime) :
  mysqlTime_wf t -> validCivil t = true ->
  gotime.YearDay (dateOf Local t)
  = dayOfYear (year t) (month t) (day t) + 1.
Proof.
  intros W V.
  pose proof (dayOfYear_range t V) as R.
  pose proof (validCivil_fields t V) as F.
  unfold gotime.YearDay. rewrite absDate_yday.
  rewrite (abs_dateOf_valid Local t W V).
  destruct (absClock_secondOfDay
              (daysSinceEpoch (year t) + dayOfYear (year t) (month t) (day t))
              (hour t) (minute t) (second t)) as [ED _]; try lia;
    try (destruct W; lia).
  rewrite ED, yearAndDay_daysSinceEpoch by exact R. reflexivity.
Qed.



(** ** Weekdays of the two clocks *)







(** ** ISO weeks *)





Lemma ISOWeek_rel (t1 : gotime.Time) :
  gotime.ISOWeek t1 =
    let '(y, m, d, yd) := gotime.absDate (gotime.abs t1) true in
    let '(dy, w) := isoWeekRel m d yd (gotime.Weekday t1)
                      (gotime.isLeap (y - 1)) in
    (y + dy, w).
Proof.
  unfold gotime.ISOWeek, isoWeekRel.
  destruct (gotime.absDate (gotime.abs t1) true) as [[[y m] d] yd].
  cbv zeta.
  repeat match goal with
         | |- context [if ?c then _ else _] => destruct c
         end; f_equal; lia.
Qed.

Lemma absDate_dateOf_valid (Local : gotime.Location) (t : mysqlTime) :
  mysqlTime_wf t -> validCivil t = true ->
  gotime.absDate (gotime.abs (dateOf Local t)) true
  = (year t, month t, day t, dayOfYear (year t) (month t) (day t)).
Proof.
  intros W V.
  pose proof (dayOfYear_range t V) as R.
  pose proof (validCivil_fields t V) as F.
  rewrite absDate_parts, (abs_dateOf_valid Local t W V).
  destruct (absClock_secondOfDay
              (daysSinceEpoch (year t) + dayOfYear (year t) (month t) (day t))
              (hour t) (minute t) (second t)) as [ED _];
    try (destruct W; lia).
  rewrite ED, yearAndDay_daysSinceEpoch by exact R.
  unfold daysIn in F.
  destruct (monthAndDay_dayOfYear (gotime.isLeap (year t)) (month t) (day t)
              ltac:(lia) ltac:(lia)) as [_ MD].
  cbv zeta in MD. unfold dayOfYear. rewrite MD. reflexivity.
Qed.






Lemma absWeekday_range (a : Z) : 0 <= gotime.absWeekday a <= 6.
Proof.
  unfold gotime.absWeekday. cbv zeta.
  change gotime.secondsPerWeek with 604800.
  change gotime.secondsPerDay with 86400.
  set (x := (a + gotime.Monday * 86400) mod 604800).
  assert (0 <= x < 604800) by (subst x; lia). clearbody x. lia.
Qed.

(** [isoWeekRel] on every day of the year and every weekday. *)
Lemma isoWeekRel_range (lp lc : bool) (wd yd : Z) :
  0 <= wd <= 6 -> 0 <= yd <= (if lc then 365 else 364) ->
  let '(m, d) := monthAndDay lc yd in
  let '(dy, w) := isoWeekRel m d yd wd lp in
  1 <= w <= 53 /\ -1 <= dy <= 1 /\
  (dy = -1 -> m = 1 /\ 52 <= w) /\ (dy = 1 -> m = 12 /\ w = 1).
Proof.
  intros Hw Hy.
  set (P := fun (l l' : bool) (i j : Z) =>
    negb (j <=? (if l' then 365 else 364))
    || (let '(m, d) := monthAndDay l' j in
        let '(dy, w) := isoWeekRel m d j i l in
        (1 <=? w) && (w <=? 53) && (-1 <=? dy) && (dy <=? 1)
        && (negb (dy =? -1) || ((m =? 1) && (52 <=? w)))
        && (negb (dy =? 1) || ((m =? 12) && (w =? 1))))).
  assert (A : P lp lc wd yd = true).
  { assert (F : forallb (P lp lc wd) (upto 366) = true).
    { apply (upto_forallb (fun i => forallb (P lp lc i) (upto 366)) 7);
        [destruct lp, lc; vm_compute; reflexivity | lia]. }
    apply (upto_forallb (P lp lc wd) 366);
      [exact F | destruct lc; lia]. }
  unfold P in A.
  apply orb_true_iff in A. destruct A as [A|A];
    [apply negb_true_iff, Z.leb_gt in A; lia|].
  destruct (monthAndDay lc yd) as [m d].
  destruct (isoWeekRel m d yd wd lp) as [dy w].
  repeat (apply andb_true_iff in A; destruct A as [A ?]).
  repeat match goal with
         | H : (_ <=? _) = true |- _ => apply Z.leb_le in H
         | H : negb _ || _ = true |- _ =>
             apply orb_true_iff in H; destruct H as [H|H];
             [apply negb_true_iff, Z.eqb_neq in H
             | apply andb_true_iff in H; destruct H as [H ?]]
         | H : (_ =? _) = true |- _ => apply Z.eqb_eq in H
         end; lia.
Qed.

(** Go's ISO week of the time built for a valid civil time. *)
Lemma ISOWeek_dateOf (Local : gotime.Location) (t : mysqlTime) :
  mysqlTime_wf t -> validCivil t = true ->
  let '(y, w) := gotime.ISOWeek (dateOf Local t) in
  1 <= w <= 53 /\ year t - 1 <= y <= year t + 1 /\
  (y = year t - 1 -> month t = 1 /\ 52 <= w) /\
  (y = year t + 1 -> month t = 12 /\ w = 1).
Proof.
  intros W V.
  pose proof (validCivil_fields t V) as F.
  pose proof (dayOfYear_range t V) as R.
  rewrite ISOWeek_rel, (absDate_dateOf_valid Local t W V).
  pose proof (absWeekday_range (gotime.abs (dateOf Local t))) as Hw.
  fold (gotime.Weekday (dateOf Local t)) in Hw.
  pose proof (isoWeekRel_range (gotime.isLeap (year t - 1))
                (gotime.isLeap (year t)) _ _ Hw R) as K.
  unfold daysIn in F.
  destruct (monthAndDay_dayOfYear (gotime.isLeap (year t)) (month t) (day t)
              ltac:(lia) ltac:(lia)) as [_ MD].
  cbv zeta in MD. fold (dayOfYear (year t) (month t) (day t)) in MD.
  rewrite MD in K.
  destruct (isoWeekRel _ _ _ _ _) as [dy w]. lia.
Qed.



Lemma accessors_after_error (Local : gotime.Location)
    (t : mysqlTime) :
  snd (GoTime Local t) <> None ->
  Weekday Local t = 0 /\ YearDay Local t = 0 /\ ISOWeek Local t = (0, 0).
Proof.
  unfold Weekday, YearDay, ISOWeek.
  destruct (GoTime Local t) as [t1 [e|]]; cbn [snd]; intros H;
    [auto | congruence].
Qed.

(** X15. [YearDay] and [ISOWeek] tell a failed conversion apart: for
    every value the struct can hold, [YearDay] is 0 exactly when [GoTime]
    fails, and so is the week of [ISOWeek].  [Weekday] is in 0..6 in every
    case, its 0 being Sunday as well as the failure. *)
Theorem accessors_zero_iff_error (Local : gotime.Location) (t : mysqlTime) :
  mysqlTime_wf t ->
  (YearDay Local t = 0 <-> snd (GoTime Local t) <> None) /\
  (snd (ISOWeek Local t) = 0 <-> snd (GoTime Local t) <> None) /\
  0 <= Weekday Local t <= 6.
Proof.
  intros W.
  destruct (GoTime_error_cases Local t) as [[A B]|[A B]].
  - assert (V : validCivil t = true)
      by (rewrite <- B; apply civilFields_valid).
    pose proof (YearDay_dateOf Local t W V) as Y.
    pose proof (dayOfYear_range t V) as R.
    pose proof (ISOWeek_dateOf Local t W V) as I.
    unfold YearDay, ISOWeek, Weekday.
    rewrite (GoTime_valid Local t W V). cbn [snd].
    destruct (gotime.ISOWeek (dateOf Local t)) as [y w]. cbn [snd].
    split; [|split].
    + split; [lia | congruence].
    + split; [lia | congruence].
    + apply absWeekday_range.
  - assert (E : snd (GoTime Local t) <> None) by congruence.
    destruct (accessors_after_error Local t E) as (E1 & E2 & E3).
    rewrite E1, E2, E3. cbn [snd]. repeat split; auto; lia.
Qed.

Lemma accessors_zero_iff_error_witness :
  (YearDay gotime.UTC (MysqlTime 2023 2 29 0 0 0 0) = 0
   <-> snd (GoTime gotime.UTC (MysqlTime 2023 2 29 0 0 0 0)) <> None) /\
  (snd (ISOWeek gotime.UTC (MysqlTime 2023 2 29 0 0 0 0)) = 0
   <-> snd (GoTime gotime.UTC (MysqlTime 2023 2 29 0 0 0 0)) <> None) /\
  0 <= Weekday gotime.UTC (MysqlTime 2023 2 29 0 0 0 0) <= 6.
Proof.
  apply (accessors_zero_iff_error gotime.UTC (MysqlTime 2023 2 29 0 0 0 0)).
  constructor; simpl; lia.
Defined.

(** ** Construction and the accessors *)

(** X16. Every value the struct can hold is rebuilt by [newMysqlTime]
    from what its seven accessors return. *)
Theorem newMysqlTime_accessors (t : mysqlTime) :
  mysqlTime_wf t ->
  newMysqlTime (Year t) (Month t) (Day t) (Hour t) (Minute t) (Second t)
               (Microsecond t) = t.
Proof.
  intros [HY HM HD HH HMI HS HU]. destruct t as [y m d h mi s us].
  unfold newMysqlTime, Year, Month, Day, Hour, Minute, Second, Microsecond,
    uint8, uint16, uint32.
  cbn [year month day hour minute second microsecond] in *.
  rewrite !Z.mod_small by assumption. reflexivity.
Qed.

Lemma newMysqlTime_accessors_witness :
  newMysqlTime (Year (MysqlTime 65535 255 0 24 60 61 4294967295))
               (Month (MysqlTime 65535 255 0 24 60 61 4294967295))
               (Day (MysqlTime 65535 255 0 24 60 61 4294967295))
               (Hour (MysqlTime 65535 255 0 24 60 61 4294967295))
               (Minute (MysqlTime 65535 255 0 24 60 61 4294967295))
               (Second (MysqlTime 65535 255 0 24 60 61 4294967295))
               (Microsecond (MysqlTime 65535 255 0 24 60 61 4294967295))
  = MysqlTime 65535 255 0 24 60 61 4294967295.
Proof.
  apply (newMysqlTime_accessors (MysqlTime 65535 255 0 24 60 61 4294967295)).
  constructor; simpl; lia.
Defined.

(** ** Steps of one day *)

(** X17. The next day of the same month is in the same week or in the
    next one, and in the same year, for a date with a month in 1..12 that
    is not on the early-January path. *)
Theorem calcWeek_next_day (t : mysqlTime) (wb : weekBehaviour) :
  mysqlTime_wf t -> 1 <= month t <= 12 -> 1 <= day t -> day t + 1 <= 31 ->
  earlyJanuary t wb = false ->
  (fst (calcWeek (withDay t (day t + 1)) wb) = fst (calcWeek t wb)
   \/ fst (calcWeek (withDay t (day t + 1)) wb) = fst (calcWeek t wb) + 1)
  /\ snd (calcWeek (withDay t (day t + 1)) wb) = snd (calcWeek t wb).
Proof.
  intros W HM HD1 HD2 E.
  assert (W' : mysqlTime_wf (withDay t (day t + 1)))
    by (apply withDay_wf; [exact W | change (2 ^ 8) with 256; lia]).
  assert (E' : earlyJanuary (withDay t (day t + 1)) wb = false).
  { destruct (calcWeekTrace_nowrap t wb W) as (Hw0 & EE & _).
    destruct (calcWeekTrace_nowrap (withDay t (day t + 1)) wb W')
      as (_ & EE' & _).
    cbv zeta in *. rewrite EE'. rewrite E in EE. symmetry in EE.
    change (weekdayOfJan1 (withDay t (day t + 1)) wb)
      with (weekdayOfJan1 t wb).
    cbn [month day withDay].
    apply andb_false_iff in EE. apply andb_false_iff.
    destruct EE as [EE|EE]; [left; exact EE | right].
    apply Z.leb_gt in EE. apply Z.leb_gt. lia. }
  destruct (calcWeek_outside_early t wb W HM ltac:(lia) E) as [B CT].
  destruct (calcWeek_outside_early (withDay t (day t + 1)) wb W' HM
              ltac:(cbn [day withDay]; lia) E') as [B' CT'].
  unfold calcWeek. rewrite CT, CT'.
  cbn [week owningYear fst snd]. cbn [year withDay].
  assert (S : daysFromWeek1 (withDay t (day t + 1)) wb
              = daysFromWeek1 t wb + 1).
  { unfold daysFromWeek1.
    change (weekdayOfJan1 (withDay t (day t + 1)) wb)
      with (weekdayOfJan1 t wb).
    cbn [year month day withDay].
    destruct W as [HY _ _ _ _ _ _]. change (2 ^ 16) with 65536 in HY.
    rewrite !calcDaynr_nowrap by lia.
    rewrite !(dayNumber_unfold (year t) (month t)) by lia. lia. }
  rewrite S. split; [lia | reflexivity].
Qed.

Lemma calcWeek_next_day_witness :
  (fst (calcWeek (withDay (date 2016 5 14) (14 + 1)) 0%N)
   = fst (calcWeek (date 2016 5 14) 0%N)
   \/ fst (calcWeek (withDay (date 2016 5 14) (14 + 1)) 0%N)
      = fst (calcWeek (date 2016 5 14) 0%N) + 1)
  /\ snd (calcWeek (withDay (date 2016 5 14) (14 + 1)) 0%N)
     = snd (calcWeek (date 2016 5 14) 0%N).
Proof.
  apply (calcWeek_next_day (date 2016 5 14) 0%N);
    [constructor; simpl; lia | simpl; lia | simpl; lia | simpl; lia
    | reflexivity].
Defined.

(** X18. The Sunday-first numbering is the Monday-first one moved up by
    one day: on a day number from -5 on (and without overflow),
    [calcWeekday] with the flag is the weekday without it plus 1, taken
    modulo 7, so Monday 0 becomes 1 and Sunday 6 becomes 0. *)
Theorem calcWeekday_sunday_first (daynr : Z) :
  -5 <= daynr -> daynr + 6 <= max_int ->
  calcWeekday daynr true = (calcWeekday daynr false + 1) mod 7.
Proof.
  intros Hlo Hhi. rewrite max_int_val in Hhi.
  rewrite !calcWeekday_nowrap by (rewrite ?min_int_val, ?max_int_val; lia).
  lia.
Qed.

Lemma calcWeekday_sunday_first_witness :
  calcWeekday 730485 true = (calcWeekday 730485 false + 1) mod 7.
Proof.
  apply (calcWeekday_sunday_first 730485); vm_compute; discriminate.
Defined.
